(** * Event-stream translation and session-state engine of the OpenCode ACP agent

    A shallow embedding of [src/index.ts] (class [OpenCodeAcpAgent] and the
    functions [toAcpNotifications] and [mapToolKind]) together with the
    properties of its delta tracker, echo filter, tool permission arbiter,
    notification mapper, background process tracker, [prompt] and
    [setSessionMode].

    Conventions of the embedding:
    - a JavaScript string is a [string]; [s.length] is [String.length s],
      [s.startsWith(p)] is [String.prefix p s] and [s.substring(n)] is
      [substring_from n s];
    - the object [this.sessions], the object [this.backgroundTerminals] and the
      [Map] [lastSentTextByMessagePartId] are finite maps with string keys
      (own properties only);
    - an optional field is an [option];
    - the two calls the agent makes on the client connection
      ([sessionUpdate], [requestPermission]) are the nodes of an interaction
      tree [Client]; a run against a client yields the list of calls made;
    - a thrown [Error] is the [Threw] case of [Result]. *)

From Stdlib Require Import String Ascii List ZArith Lia.
From stdpp Require Import gmap strings list fin_maps.

Local Open Scope string_scope.

(** ** Strings *)

(** [s.substring(n)]: the suffix of [s] from index [n]; an index beyond the end
    is clamped to the length, which leaves the empty string. *)
Fixpoint substring_from (n : nat) (s : string) : string :=
  match n, s with
  | O, _ => s
  | S _, EmptyString => EmptyString
  | S n', String _ s' => substring_from n' s'
  end.

(** [s.startsWith(p)] *)
Definition startsWith (s p : string) : bool := String.prefix p s.

(** [a || b] on strings: the empty string is falsy. *)
Definition str_or (a b : string) : string :=
  if decide (a = "") then b else a.

(** [a || b] where [a] may be [undefined]. *)
Definition opt_str_or (a : option string) (b : string) : string :=
  match a with
  | Some s => str_or s b
  | None => b
  end.

(** ** Enumerations of the ACP schema *)

Inductive ToolCallStatus : Type :=
| Pending
| InProgress
| Completed
| Failed.

Inductive ToolKind : Type :=
| Read
| Edit
| Delete
| Move
| Search
| Execute
| Think
| Fetch
| SwitchMode
| Other.

Inductive PlanEntryPriority : Type :=
| High
| Medium
| Low.

Inductive PlanEntryStatus : Type :=
| PlanPending
| PlanInProgress
| PlanCompleted.

Inductive StopReason : Type :=
| end_turn
| max_tokens
| max_turn_requests
| refusal
| cancelled.

#[global] Instance ToolCallStatus_eq_dec : EqDecision ToolCallStatus.
Proof. solve_decision. Defined.

#[global] Instance ToolKind_eq_dec : EqDecision ToolKind.
Proof. solve_decision. Defined.

(** ** Tool kind inference *)

Definition mapToolKind (toolName : string) : ToolKind :=
  if startsWith toolName "read" then Read
  else if startsWith toolName "write"
          || startsWith toolName "edit"
          || startsWith toolName "apply"
          || startsWith toolName "insert" then Edit
  else if startsWith toolName "execute" then Execute
  else if startsWith toolName "search" || startsWith toolName "list" then Search
  else if startsWith toolName "browser" then Fetch
  else if startsWith toolName "update"
          || startsWith toolName "ask"
          || startsWith toolName "new_task" then Think
  else if startsWith toolName "switch" then SwitchMode
  else Other.

(** The inference as the specification words it: an ordered table of
    prefixes, the first row with a matching prefix gives the kind, and a
    name that matches no row is [Other]. *)
Definition kind_table : list (list string * ToolKind) :=
  [ (["read"], Read);
    (["write"; "edit"; "apply"; "insert"], Edit);
    (["execute"], Execute);
    (["search"; "list"], Search);
    (["browser"], Fetch);
    (["update"; "ask"; "new_task"], Think);
    (["switch"], SwitchMode) ].

Fixpoint first_matching_row (rows : list (list string * ToolKind))
    (toolName : string) : ToolKind :=
  match rows with
  | [] => Other
  | (prefixes, kind) :: rest =>
      if existsb (fun p => String.prefix p toolName) prefixes then kind
      else first_matching_row rest toolName
  end.

Definition kind_by_table (toolName : string) : ToolKind :=
  first_matching_row kind_table toolName.

(** ** Downstream notifications (ACP [SessionNotification]) *)

Inductive ContentBlock : Type :=
| TextContent (text : string)
| ImageContent (mimeType uri data : string).

Inductive ToolCallContent : Type :=
| Content (content : ContentBlock)
| Diff (path : string) (oldText : option string) (newText : string).

Record PlanEntry : Type := mkPlanEntry {
  entry_content : string;
  entry_priority : PlanEntryPriority;
  entry_status : PlanEntryStatus
}.

(** The [update] member of a notification, by its [sessionUpdate] tag.  A
    field that one call site sets and another leaves out is an [option]. *)
Inductive SessionUpdate : Type :=
| agent_message_chunk (content : ContentBlock)
| agent_thought_chunk (content : ContentBlock)
| tool_call (toolCallId title : string) (status : ToolCallStatus)
    (kind : ToolKind) (content : list ToolCallContent)
    (locations : option (list string))
| tool_call_update (toolCallId : string) (title : option string)
    (status : ToolCallStatus) (content : list ToolCallContent)
    (locations : option (list string))
| plan (entries : list PlanEntry).

Record SessionNotification : Type := mkNotification {
  sessionId : string;
  update : SessionUpdate
}.

(** ** Permission round trip *)

Record PermissionOption : Type := mkOption {
  optionId : string;
  option_name : string;
  option_kind : string
}.

Record RequestPermissionRequest : Type := mkPermissionRequest {
  req_sessionId : string;
  req_toolCallId : string;
  req_title : string;
  req_options : list PermissionOption
}.

(** [permissionResponse.outcome]: either [{outcome: "cancelled"}] or
    [{outcome: "selected", optionId}]. *)
Inductive RequestPermissionOutcome : Type :=
| outcome_cancelled
| outcome_selected (optionId : string).

(** ** Upstream parts (OpenCode [Part]) *)

Record PartTime : Type := mkTime {
  time_start : Z;
  time_end : option Z
}.

(** What the handlers read of a tool's output: an object with [path] and
    [newText] (and maybe [oldText]), or anything else; [json] is the text
    [JSON.stringify] gives for the output. *)
Inductive ToolOutput : Type :=
| OutputEdit (path : string) (oldText : option string) (newText : string)
    (json : string)
| OutputJson (json : string).

(** [part.state]; [input], [output] and [error] are kept as the text
    [JSON.stringify] gives for them ([input_json] is that of [input || {}]). *)
Inductive ToolState : Type :=
| StatePending
| StateRunning (title : option string) (input_json : string)
| StateCompleted (output : ToolOutput)
| StateError (error_json : string).

Inductive PartBody : Type :=
| PartText (text : string) (time : option PartTime)
| PartReasoning (text : string)
| PartTool (callID tool : string) (state : ToolState)
    (content : option (list ToolCallContent))
    (locations : option (list string))
| PartFile (mime : string) (filename : option string) (url : string)
| PartPatch (hash : string) (files : list string)
| PartSnapshot
| PartAgent
| PartStepStart
| PartStepFinish
| PartUnknown (type : string).

Record Part : Type := mkPart {
  part_id : string;
  part_sessionID : string;
  part_body : PartBody
}.

(** [messageInfo.error] of an assistant message. *)
Record MessageError : Type := mkMessageError {
  error_name : string;
  error_message : option string;
  error_data_json : string
}.

Record AssistantMessage : Type := mkAssistantMessage {
  msg_sessionID : string;
  msg_error : option MessageError
}.

Inductive Event : Type :=
| message_part_updated (part : Part)
| message_updated (info : AssistantMessage)
| other_event (type : string).

(** ** Agent state *)

(** A [Session]; the handles [input] and [opencodeClient] carry no state of
    the engine, and [messageUpdateResolver] is assigned nowhere. *)
Record Session : Type := mkSession {
  session_cancelled : bool;
  permissionMode : string;
  lastSentTextByMessagePartId : gmap string string
}.

Inductive TerminalStatus : Type :=
| started
| aborted
| exited
| killed
| timedOut.

Record ExitStatus : Type := mkExitStatus {
  exitCode : option Z;
  signal : option string
}.

Record BackgroundTerminal : Type := mkTerminal {
  shellId : string;
  output : string;
  exitStatus : option ExitStatus;
  status : TerminalStatus
}.

Record Agent : Type := mkAgent {
  sessions : gmap string Session;
  backgroundTerminals : gmap string BackgroundTerminal
}.

#[global] Instance TerminalStatus_eq_dec : EqDecision TerminalStatus.
Proof. solve_decision. Defined.

(** ** Calls on the client connection *)

(** A computation that calls [client.sessionUpdate] and
    [client.requestPermission] and then returns; the answer of the client to
    a permission request selects the continuation. *)
Inductive Client (A : Type) : Type :=
| Ret (a : A)
| SessionUpdateCall (n : SessionNotification) (k : Client A)
| RequestPermissionCall (r : RequestPermissionRequest)
    (k : RequestPermissionOutcome -> Client A).

Arguments Ret {A} a.
Arguments SessionUpdateCall {A} n k.
Arguments RequestPermissionCall {A} r k.

Fixpoint bind {A B : Type} (m : Client A) (f : A -> Client B) : Client B :=
  match m with
  | Ret a => f a
  | SessionUpdateCall n k => SessionUpdateCall n (bind k f)
  | RequestPermissionCall r k => RequestPermissionCall r (fun o => bind (k o) f)
  end.

#[global] Instance Client_ret : MRet Client := @Ret.
#[global] Instance Client_bind : MBind Client := fun A B f m => bind m f.

Definition sessionUpdate (n : SessionNotification) : Client unit :=
  SessionUpdateCall n (Ret tt).

Definition requestPermission (r : RequestPermissionRequest)
    : Client RequestPermissionOutcome :=
  RequestPermissionCall r (fun o => Ret o).

(** [for (const n of notifications) await this.client.sessionUpdate(n)] *)
Fixpoint sendAll (ns : list SessionNotification) : Client unit :=
  match ns with
  | [] => Ret tt
  | n :: rest => sessionUpdate n;; sendAll rest
  end.

(** What the client observes of a run. *)
Inductive Call : Type :=
| Notified (n : SessionNotification)
| Asked (r : RequestPermissionRequest) (answer : RequestPermissionOutcome).

(** Run a computation against a client that answers permission requests by
    [answer]; the calls are listed in the order they were made. *)
Fixpoint run {A : Type} (answer : RequestPermissionRequest -> RequestPermissionOutcome)
    (m : Client A) : list Call * A :=
  match m with
  | Ret a => ([], a)
  | SessionUpdateCall n k =>
      let '(calls, a) := run answer k in (Notified n :: calls, a)
  | RequestPermissionCall r k =>
      let '(calls, a) := run answer (k (answer r)) in
      (Asked r (answer r) :: calls, a)
  end.

Definition calls_of {A : Type} (answer : RequestPermissionRequest -> RequestPermissionOutcome)
    (m : Client A) : list Call :=
  fst (run answer m).

Definition result_of {A : Type} (answer : RequestPermissionRequest -> RequestPermissionOutcome)
    (m : Client A) : A :=
  snd (run answer m).

(** ** Notification mapper *)

Definition JSON_stringify_output (o : ToolOutput) : string :=
  match o with
  | OutputEdit _ _ _ json => json
  | OutputJson json => json
  end.

(** The [switch] of [toAcpNotifications]: the update for one part, if any. *)
Definition part_update (messagePart : Part) : option SessionUpdate :=
  match part_body messagePart with
  | PartText text _ =>
      Some (agent_message_chunk (TextContent text))
  | PartTool callID tool state content locations =>
      match state with
      | StatePending =>
          Some (tool_call callID tool Pending (mapToolKind tool)
                  (default [] content) (Some (default [] locations)))
      | StateRunning title input_json =>
          Some (tool_call_update callID (Some (opt_str_or title tool)) InProgress
                  [Content (TextContent ("Tool input: " ++ input_json))]
                  (Some (default [] locations)))
      | StateCompleted output =>
          match output with
          | OutputEdit path oldText newText _ =>
              if decide (mapToolKind tool = Edit)
              then Some (tool_call_update callID None Completed
                           [Diff path oldText newText] None)
              else Some (tool_call_update callID None Completed
                           [Content (TextContent (JSON_stringify_output output))] None)
          | OutputJson json =>
              Some (tool_call_update callID None Completed
                      [Content (TextContent json)] None)
          end
      | StateError error_json =>
          Some (tool_call_update callID None Failed
                  [Content (TextContent error_json)] None)
      end
  | PartFile mime filename url =>
      Some (agent_message_chunk
              (if startsWith mime "image/"
               then ImageContent mime url ""
               else TextContent ("File: " ++ opt_str_or filename url
                                   ++ " (" ++ mime ++ ")")))
  | PartReasoning text =>
      Some (plan [mkPlanEntry text Medium PlanPending])
  | PartPatch hash files =>
      Some (tool_call ("patch-" ++ hash)
              ("Applying patch to " ++ String.concat ", " files)
              Completed Edit
              [Content (TextContent ("Patch applied with hash: " ++ hash))]
              None)
  | PartSnapshot | PartAgent | PartStepStart | PartStepFinish => None
  | PartUnknown _ => None
  end.

Definition error_chunk (error : MessageError) : SessionUpdate :=
  agent_message_chunk
    (TextContent ("Error from OpenCode: " ++ error_name error ++ " - "
                    ++ opt_str_or (error_message error) (error_data_json error))).

Definition toAcpNotifications (messageInfo : AssistantMessage)
    (messagePart : Part) (sessionId : string) : list SessionNotification :=
  let output :=
    match part_update messagePart with
    | Some update => [mkNotification sessionId update]
    | None => []
    end in
  match msg_error messageInfo with
  | Some error => output ++ [mkNotification sessionId (error_chunk error)]
  | None => output
  end.

(** [{} as AssistantMessage], the placeholder the event loop passes. *)
Definition placeholder_message : AssistantMessage :=
  mkAssistantMessage "" None.

(** ** Tool permission arbiter *)

Definition blocked_in_plan_mode (sessionID callID : string) : SessionNotification :=
  mkNotification sessionID
    (tool_call_update callID None Failed
       [Content (TextContent "Tool execution blocked in Plan Mode.")] None).

Definition permission_denied (sessionID callID tool : string) : SessionNotification :=
  mkNotification sessionID
    (tool_call_update callID None Failed
       [Content (TextContent ("Permission for tool '" ++ tool ++ "' denied."))] None).

Definition pending_tool_call (sessionID callID tool : string)
    (content : option (list ToolCallContent)) : SessionNotification :=
  mkNotification sessionID
    (tool_call callID tool Pending (mapToolKind tool) (default [] content) None).

Definition permission_request (sessionID callID tool : string)
    : RequestPermissionRequest :=
  mkPermissionRequest sessionID callID
    ("Allow agent to run tool: " ++ tool ++ "?")
    [ mkOption "allow_once" "Allow Once" "allow_once";
      mkOption "reject_once" "Deny" "reject_once" ].

(** [outcome.outcome !== "selected" || outcome.optionId !== "allow_once"] *)
Definition not_allowed_once (o : RequestPermissionOutcome) : bool :=
  match o with
  | outcome_cancelled => true
  | outcome_selected optionId => negb (bool_decide (optionId = "allow_once"))
  end.

(** The [if / else if / else] on the permission mode.  [None] stands for the
    [continue] that leaves the loop body; [Some g] is the value of
    [permissionGranted] when control goes on. *)
Definition decidePermission (session : Session) (sessionID callID tool : string)
    (content : option (list ToolCallContent)) : Client (option bool) :=
  if bool_decide (permissionMode session = "bypassPermissions")
     || bool_decide (permissionMode session = "acceptEdits")
  then mret (Some true)
  else if bool_decide (permissionMode session = "plan")
  then sessionUpdate (blocked_in_plan_mode sessionID callID);;
       mret None
  else
    sessionUpdate (pending_tool_call sessionID callID tool content);;
    requestPermission (permission_request sessionID callID tool)
      ≫= λ permissionResponse : RequestPermissionOutcome,
    if not_allowed_once permissionResponse
    then sessionUpdate (permission_denied sessionID callID tool);;
         mret None
    else mret (Some false).

(** The whole block guarded by
    [part.type === "tool" && part.state.status === "pending"]; the result is
    [false] when a [continue] was taken and [true] when control falls through
    to the notification mapper. *)
Definition toolPermissionArbiter (session : Session) (sessionID callID tool : string)
    (content : option (list ToolCallContent)) : Client bool :=
  decidePermission session sessionID callID tool content ≫= λ granted : option bool,
  match granted with
  | None => mret false
  | Some permissionGranted =>
      (if permissionGranted
       then if negb (bool_decide (permissionMode session = "default"))
            then sessionUpdate (pending_tool_call sessionID callID tool content)
            else mret tt
       else mret tt);;
      mret true
  end.

(** ** Delta tracker *)

(** [session.lastSentTextByMessagePartId.get(partId) || ""] *)
Definition previousText (session : Session) (partId : string) : string :=
  opt_str_or (lastSentTextByMessagePartId session !! partId) "".

(** [currentText.substring(previousText.length)] *)
Definition deltaText (session : Session) (partId currentText : string) : string :=
  substring_from (String.length (previousText session partId)) currentText.

(** [session.lastSentTextByMessagePartId.set(partId, currentText)] *)
Definition setLastSent (session : Session) (partId currentText : string) : Session :=
  mkSession (session_cancelled session) (permissionMode session)
    (<[partId := currentText]> (lastSentTextByMessagePartId session)).

Definition setSession (agent : Agent) (sessionID : string) (session : Session) : Agent :=
  mkAgent (<[sessionID := session]> (sessions agent)) (backgroundTerminals agent).

(** The delta computation shared by the text and the reasoning branch:
    [chunk] builds the update from the content block. *)
Definition streamDelta (agent : Agent) (session : Session)
    (sessionID partId currentText : string)
    (chunk : ContentBlock -> SessionUpdate) : Client Agent :=
  let delta := deltaText session partId currentText in
  let agent' := setSession agent sessionID (setLastSent session partId currentText) in
  if (0 <? String.length delta)%nat
  then sessionUpdate (mkNotification sessionID (chunk (TextContent delta)));;
       mret agent'
  else mret agent'.

(** ** Event loop *)

(** [part.type === "text" && !part.time] *)
Definition is_echo (part : Part) : bool :=
  match part_body part with
  | PartText _ None => true
  | _ => false
  end.

(** The body of the loop for a [message.part.updated] event. *)
Definition handlePartUpdated (agent : Agent) (part : Part) : Client Agent :=
  let sessionID := part_sessionID part in
  if is_echo part then mret agent
  else if bool_decide (sessionID = "") then mret agent
  else
    match sessions agent !! sessionID with
    | None => mret agent
    | Some session =>
        match part_body part with
        | PartText currentText _ =>
            streamDelta agent session sessionID (part_id part) currentText
              agent_message_chunk
        | PartReasoning currentText =>
            streamDelta agent session sessionID (part_id part) currentText
              agent_thought_chunk
        | body =>
            match body return Client bool with
            | PartTool callID tool StatePending content _ =>
                toolPermissionArbiter session sessionID callID tool content
            | _ => mret true
            end ≫= λ goes_on : bool,
            if goes_on
            then sendAll (toAcpNotifications placeholder_message part sessionID);;
                 mret agent
            else mret agent
        end
    end.

Definition handleEvent (agent : Agent) (event : Event) : Client Agent :=
  match event with
  | message_part_updated part => handlePartUpdated agent part
  | message_updated _ => mret agent
  | other_event _ => mret agent
  end.

(** [for await (const event of events.stream)] over the events received so far. *)
Fixpoint eventLoop (agent : Agent) (events : list Event) : Client Agent :=
  match events with
  | [] => mret agent
  | event :: rest =>
      agent' ← handleEvent agent event;
      eventLoop agent' rest
  end.

(** ** Requests of the client: results and thrown errors *)

(** What a [throw] carries: [new Error(message)], or an error object handed
    over by the upstream runtime (kept as its text). *)
Inductive Thrown : Type :=
| Error (message : string)
| UpstreamError (json : string).

Inductive Result (A : Type) : Type :=
| Returned (a : A)
| Threw (e : Thrown).

Arguments Returned {A} a.
Arguments Threw {A} e.

(** The [{ data, error }] pair an upstream call resolves to. *)
Record UpstreamResponse (A : Type) : Type := mkResponse {
  response_data : option A;
  response_error : option string
}.

Arguments mkResponse {A} _ _.
Arguments response_data {A} _.
Arguments response_error {A} _.

(** ** setSessionMode *)

Definition setPermissionMode (session : Session) (modeId : string) : Session :=
  mkSession (session_cancelled session) modeId (lastSentTextByMessagePartId session).

Definition is_mode (modeId : string) : bool :=
  bool_decide (modeId = "default")
  || bool_decide (modeId = "acceptEdits")
  || bool_decide (modeId = "plan")
  || bool_decide (modeId = "bypassPermissions").

Definition setSessionMode (agent : Agent) (sessionId modeId : string)
    : Agent * Result unit :=
  match sessions agent !! sessionId with
  | None => (agent, Threw (Error "Session not found"))
  | Some session =>
      if is_mode modeId
      then (setSession agent sessionId (setPermissionMode session modeId), Returned tt)
      else (agent, Threw (Error "Invalid mode"))
  end.

(** ** prompt *)

(** A block of the prompt: only a leading text block is inspected by the
    agent, the others are converted and handed to the upstream runtime. *)
Inductive PromptBlock : Type :=
| PromptText (text : string)
| PromptOther (type : string).

Record PromptData : Type := mkPromptData {
  info : AssistantMessage
}.

(** [const [command, ...args] = text.split(' ')] followed by
    [args.join(' ')]: the text before the first space and the text after it. *)
Fixpoint split_command (text : string) : string * string :=
  match text with
  | EmptyString => (EmptyString, EmptyString)
  | String c rest =>
      if Ascii.eqb c " "%char then (EmptyString, rest)
      else let '(command, args) := split_command rest in (String c command, args)
  end.

(** The leading slash command of a prompt, if it has one. *)
Definition slash_command (prompt : list PromptBlock) : option (string * string) :=
  match prompt with
  | PromptText text :: _ =>
      if startsWith text "/" then Some (split_command (substring_from 1 text))
      else None
  | _ => None
  end.

(** [stopReason] from the final message of the prompt call. *)
Definition stopReason_of (promptData : PromptData) : StopReason :=
  match msg_error (info promptData) with
  | Some error =>
      if bool_decide (error_name error = "MessageAbortedError")
      then cancelled
      else refusal
  | None => end_turn
  end.

Definition setCancelled (session : Session) (c : bool) : Session :=
  mkSession c (permissionMode session) (lastSentTextByMessagePartId session).

Section Prompt.

(** [opencodeClient.session.prompt], by session id and prompt. *)
Variable session_prompt : string -> list PromptBlock -> UpstreamResponse PromptData.

(** [this.handleCommand(sessionId, command, args)]: whether the command was
    handled, or what it threw.  Its body only talks to the upstream runtime
    and the client and leaves the tables of the agent as they are. *)
Variable handleCommand : string -> string -> string -> Result bool.

(** The part of [prompt] from the upstream call on. *)
Definition prompt_upstream (sessionId : string) (prompt : list PromptBlock)
    : Result StopReason :=
  let r := session_prompt sessionId prompt in
  match response_error r with
  | Some promptError => Threw (UpstreamError promptError)
  | None =>
      match response_data r with
      | None => Threw (Error "Unexpected empty response from Opencode prompt.")
      | Some promptData => Returned (stopReason_of promptData)
      end
  end.

Definition prompt (agent : Agent) (sessionId : string) (prompt : list PromptBlock)
    : Agent * Result StopReason :=
  match sessions agent !! sessionId with
  | None => (agent, Threw (Error "Session not found"))
  | Some session =>
      let agent' := setSession agent sessionId (setCancelled session false) in
      match slash_command prompt with
      | Some (command, args) =>
          match handleCommand sessionId command args with
          | Threw e => (agent', Threw e)
          | Returned true => (agent', Returned end_turn)
          | Returned false => (agent', prompt_upstream sessionId prompt)
          end
      | None => (agent', prompt_upstream sessionId prompt)
      end
  end.

End Prompt.

(** ** Background process tracker *)

Definition setTerminals (agent : Agent) (t : gmap string BackgroundTerminal) : Agent :=
  mkAgent (sessions agent) t.

(** [createTerminal]; [terminalId] is the identifier generated from the clock
    and the random source, [shell] the answer of [session.shell] (its data is
    the [id] of the shell). *)
Definition createTerminal (agent : Agent) (terminalId : string)
    (shell : UpstreamResponse string) : Agent * Result string :=
  match response_error shell, response_data shell with
  | Some shellError, _ =>
      (agent, Threw (Error ("Failed to create terminal: Error: Failed to create terminal: "
                              ++ shellError)))
  | None, Some id =>
      if bool_decide (id = "")
      then (agent, Threw (Error "Failed to create terminal: Error: Failed to create terminal: undefined shell data"))
      else (setTerminals agent
              (<[terminalId := mkTerminal id "" None started]> (backgroundTerminals agent)),
            Returned terminalId)
  | None, None =>
      (agent, Threw (Error "Failed to create terminal: Error: Failed to create terminal: undefined shell data"))
  end.

Record TerminalOutputResponse : Type := mkOutputResponse {
  resp_output : string;
  resp_truncated : bool;
  resp_exitStatus : option ExitStatus
}.

Definition terminal_not_found {A : Type} (terminalId : string) : Result A :=
  Threw (Error ("Terminal not found: " ++ terminalId)).

Definition terminalOutput (agent : Agent) (terminalId : string)
    : Agent * Result TerminalOutputResponse :=
  match backgroundTerminals agent !! terminalId with
  | None => (agent, terminal_not_found terminalId)
  | Some terminal =>
      (agent, Returned (mkOutputResponse (output terminal) false (exitStatus terminal)))
  end.

(** [{ exitCode: exitStatus?.exitCode ?? null, signal: exitStatus?.signal ?? null }] *)
Definition exit_response (terminal : BackgroundTerminal) : ExitStatus :=
  match exitStatus terminal with
  | Some s => mkExitStatus (exitCode s) (signal s)
  | None => mkExitStatus None None
  end.

(** One test of the loop condition of [waitForTerminalExit]: [None] while the
    terminal is [started] (the loop sleeps 500 ms and tests again), the
    response once it is not. *)
Definition waitForTerminalExit_poll (terminal : BackgroundTerminal) : option ExitStatus :=
  if decide (status terminal = started) then None else Some (exit_response terminal).

(** [waitForTerminalExit] up to its first test; it writes nothing. *)
Definition waitForTerminalExit (agent : Agent) (terminalId : string)
    : Agent * Result (option ExitStatus) :=
  match backgroundTerminals agent !! terminalId with
  | None => (agent, terminal_not_found terminalId)
  | Some terminal => (agent, Returned (waitForTerminalExit_poll terminal))
  end.

Definition setStatus (terminal : BackgroundTerminal) (s : TerminalStatus) : BackgroundTerminal :=
  mkTerminal (shellId terminal) (output terminal) (exitStatus terminal) s.

(** The method ["terminal/kill"]. *)
Definition terminal_kill (agent : Agent) (terminalId : string) : Agent * Result unit :=
  match backgroundTerminals agent !! terminalId with
  | None => (agent, terminal_not_found terminalId)
  | Some terminal =>
      (setTerminals agent
         (<[terminalId := setStatus terminal killed]> (backgroundTerminals agent)),
       Returned tt)
  end.

Definition releaseTerminal (agent : Agent) (terminalId : string) : Agent * Result unit :=
  match backgroundTerminals agent !! terminalId with
  | None => (agent, terminal_not_found terminalId)
  | Some _ =>
      (setTerminals agent (delete terminalId (backgroundTerminals agent)), Returned tt)
  end.

(** The operations of the tracker, as requests. *)
Inductive TerminalRequest : Type :=
| CreateTerminal (terminalId : string) (shell : UpstreamResponse string)
| TerminalOutput (terminalId : string)
| WaitForTerminalExit (terminalId : string)
| KillTerminal (terminalId : string)
| ReleaseTerminal (terminalId : string).

(** The agent after serving a request. *)
Definition serve (agent : Agent) (r : TerminalRequest) : Agent :=
  match r with
  | CreateTerminal terminalId shell => fst (createTerminal agent terminalId shell)
  | TerminalOutput terminalId => fst (terminalOutput agent terminalId)
  | WaitForTerminalExit terminalId => fst (waitForTerminalExit agent terminalId)
  | KillTerminal terminalId => fst (terminal_kill agent terminalId)
  | ReleaseTerminal terminalId => fst (releaseTerminal agent terminalId)
  end.

(** A generated identifier is new: a [CreateTerminal] names no terminal
    already in the table. *)
Definition fresh_id (agent : Agent) (r : TerminalRequest) : Prop :=
  match r with
  | CreateTerminal terminalId _ => backgroundTerminals agent !! terminalId = None
  | _ => True
  end.

(** The agents reached from a state with no terminal (as the constructor
    leaves [backgroundTerminals]) by serving terminal requests. *)
Inductive reachable : Agent -> Prop :=
| reachable_init table : reachable (mkAgent table ∅)
| reachable_serve agent r :
    reachable agent -> fresh_id agent r -> reachable (serve agent r).

(** The status of a terminal, by identifier. *)
Definition status_of (agent : Agent) (terminalId : string) : option TerminalStatus :=
  status <$> backgroundTerminals agent !! terminalId.

(** ** Events, calls and texts named in the properties *)

(** [part.type === "text"] *)
Definition is_text (body : PartBody) : bool :=
  match body with
  | PartText _ _ => true
  | _ => false
  end.

(** A text part update with a timestamp, from a snapshot of the text. *)
Definition text_event (sessionID partId : string) (snapshot : string * PartTime) : Event :=
  message_part_updated
    (mkPart partId sessionID (PartText (fst snapshot) (Some (snd snapshot)))).

(** The [agent_message_chunk] notification carrying [delta], as a call. *)
Definition message_chunk (sessionID delta : string) : Call :=
  Notified (mkNotification sessionID (agent_message_chunk (TextContent delta))).

(** The concatenation of a list of texts. *)
Definition concat_texts (texts : list string) : string :=
  foldr String.append "" texts.

(** Cumulative snapshots: the first extends [prev] and each one is a prefix
    of the next. *)
Fixpoint prefix_chain (prev : string) (texts : list string) : Prop :=
  match texts with
  | [] => True
  | text :: rest => String.prefix prev text = true /\ prefix_chain text rest
  end.

(** The event of a tool part in [pending] status. *)
Definition pending_tool_event (partId sessionID callID tool : string)
    (content : option (list ToolCallContent)) (locations : option (list string)) : Event :=
  message_part_updated
    (mkPart partId sessionID (PartTool callID tool StatePending content locations)).

(** ** cancel *)

(** [cancel]; [abort] is how the call [session.abort] of the upstream runtime
    ends.  The flag is written before that call is made. *)
Definition cancel (agent : Agent) (sessionId : string) (abort : Result unit)
    : Agent * Result unit :=
  match sessions agent !! sessionId with
  | None => (agent, Threw (Error "Session not found"))
  | Some session => (setSession agent sessionId (setCancelled session true), abort)
  end.

(** ** newSession and loadSession *)

Record SessionMode : Type := mkMode {
  mode_id : string;
  mode_name : string;
  mode_description : string
}.

Record SessionModeState : Type := mkModeState {
  currentModeId : string;
  availableModes : list SessionMode
}.

(** The [modes] member both [newSession] and [loadSession] return. *)
Definition session_modes : SessionModeState :=
  mkModeState "default"
    [ mkMode "default" "Always Ask" "Prompts for permission on first use of each tool";
      mkMode "acceptEdits" "Accept Edits"
        "Automatically accepts file edit permissions for the session";
      mkMode "bypassPermissions" "Bypass Permissions" "Skips all permission prompts";
      mkMode "plan" "Plan Mode"
        "Claude can analyze but not modify files or execute commands" ].

(** The record [newSession] and [loadSession] store for a session. *)
Definition initial_session : Session := mkSession false "default" ∅.

(** [errorDetails]: the text of the error of an upstream call, or the text
    for a missing response. *)
Definition error_details (error : option string) (missing : string) : string :=
  match error with
  | Some e => e
  | None => missing
  end.

(** [newSession]; [create] is the answer of [session.create], its data the
    [id] of the session created.  The timer callback that sends the
    [available_commands_update] 250 ms later runs after the request has
    returned and is not part of it. *)
Definition newSession (agent : Agent) (create : UpstreamResponse string)
    : Agent * Result (string * SessionModeState) :=
  match response_error create, response_data create with
  | None, Some sessionId =>
      (setSession agent sessionId initial_session, Returned (sessionId, session_modes))
  | sessionError, _ =>
      (agent, Threw (Error ("Failed to create opencode session: "
                              ++ error_details sessionError "undefined response")))
  end.

(** A message of the history [session.messages] returns: its role, its parts
    and, for an assistant message, the members of [info] the agent reads. *)
Inductive StoredMessage : Type :=
| UserMessage (parts : list Part)
| StoredAssistantMessage (info : AssistantMessage) (providerID modelID : string)
    (parts : list Part).

(** A notification of the replay: a [user_message_chunk], which only
    [loadSession] sends, or one of the notifications of the mapper. *)
Inductive ReplayNotification : Type :=
| user_message_chunk (sessionId : string) (content : ContentBlock)
| replayed (n : SessionNotification).

(** The notifications of the replay of one message. *)
Definition replayMessage (sessionId : string) (message : StoredMessage)
    : list ReplayNotification :=
  match message with
  | UserMessage parts =>
      flat_map (fun part =>
                  match part_body part with
                  | PartText text _ => [user_message_chunk sessionId (TextContent text)]
                  | _ => []
                  end) parts
  | StoredAssistantMessage info _ _ parts =>
      flat_map (fun part => map replayed (toAcpNotifications info part sessionId)) parts
  end.

(** [loadSession]; [verify] is the answer of [session.get] and [history] that
    of [session.messages].  The result lists the notifications sent, in
    order. *)
Definition loadSession (agent : Agent) (sessionId : string)
    (verify : UpstreamResponse unit) (history : UpstreamResponse (list StoredMessage))
    : Agent * list ReplayNotification * Result SessionModeState :=
  match response_error verify, response_data verify with
  | None, Some _ =>
      let agent' := setSession agent sessionId initial_session in
      match response_error history, response_data history with
      | None, Some messagesData =>
          (agent', flat_map (replayMessage sessionId) messagesData, Returned session_modes)
      | messagesError, _ =>
          (agent', [],
           Threw (Error ("Failed to fetch conversation history: "
                           ++ error_details messagesError "undefined response")))
      end
  | sessionError, _ =>
      (agent, [],
       Threw (Error ("Failed to verify opencode session: "
                       ++ error_details sessionError "undefined response")))
  end.

(** ** getModelInfo *)

(** [s.split(sep)] for a separator of one character. *)
Fixpoint split_on (sep : ascii) (s : string) : list string :=
  match s with
  | EmptyString => [EmptyString]
  | String c rest =>
      if Ascii.eqb c sep then EmptyString :: split_on sep rest
      else match split_on sep rest with
           | [] => [String c EmptyString]
           | piece :: pieces => String c piece :: pieces
           end
  end.

(** A value used as a condition: a string is truthy when it is not empty. *)
Definition truthy (s : string) : bool := negb (bool_decide (s = "")).

Record Config : Type := mkConfig {
  config_model : option string
}.

(** A provider: its [id] and the keys of its [models], in the order
    [Object.keys] lists them. *)
Record Provider : Type := mkProvider {
  provider_id : string;
  provider_models : list string
}.

(** [messages.filter(m => m.info.role === 'assistant').pop()?.info]: provider
    and model of the last assistant message. *)
Definition lastAssistantMessage (messages : list StoredMessage) : option (string * string) :=
  last (omap (fun m => match m with
                       | StoredAssistantMessage _ providerID modelID _ =>
                           Some (providerID, modelID)
                       | UserMessage _ => None
                       end) messages).

(** First source: the last assistant message. *)
Definition model_of_messages (messages : UpstreamResponse (list StoredMessage))
    : option (string * string) :=
  match response_error messages, response_data messages with
  | None, Some ((_ :: _) as data) =>
      match lastAssistantMessage data with
      | Some (providerID, modelID) =>
          if truthy providerID && truthy modelID then Some (providerID, modelID) else None
      | None => None
      end
  | _, _ => None
  end.

(** Second source: [config.model], split at the slashes. *)
Definition model_of_config (config : UpstreamResponse Config) : option (string * string) :=
  match response_error config, response_data config with
  | None, Some data =>
      match config_model data with
      | Some model =>
          if truthy model
          then match split_on "/" model with
               | providerID :: modelID :: _ =>
                   if truthy providerID && truthy modelID
                   then Some (providerID, modelID) else None
               | _ => None
               end
          else None
      | None => None
      end
  | _, _ => None
  end.

(** Third source: the first model of the first provider. *)
Definition model_of_providers (providers : UpstreamResponse (list Provider))
    : option (string * string) :=
  match response_error providers, response_data providers with
  | None, Some (firstProvider :: _) =>
      match provider_models firstProvider with
      | firstModelId :: _ =>
          if truthy firstModelId then Some (provider_id firstProvider, firstModelId)
          else None
      | [] => None
      end
  | _, _ => None
  end.

(** [getModelInfo], from the answers of [session.messages], [config.get] and
    [config.providers]: provider id and model id. *)
Definition getModelInfo (messages : UpstreamResponse (list StoredMessage))
    (config : UpstreamResponse Config) (providers : UpstreamResponse (list Provider))
    : Result (string * string) :=
  match model_of_messages messages with
  | Some model => Returned model
  | None =>
      match model_of_config config with
      | Some model => Returned model
      | None =>
          match model_of_providers providers with
          | Some model => Returned model
          | None => Threw (Error "Could not determine a model to use.")
          end
      end
  end.

(** ** Keys of plain objects *)

(** The property names every plain object inherits from [Object.prototype].
    [this.sessions[id]] and [this.backgroundTerminals[id]] find a value under
    these names also when nothing is stored for them.  The tables of the
    model hold what is stored (the own properties), so what is stated about
    an id that is not in a table is stated for ids that are none of these
    names. *)
Definition inherited_keys : list string :=
  [ "constructor"; "__defineGetter__"; "__defineSetter__"; "hasOwnProperty";
    "__lookupGetter__"; "__lookupSetter__"; "isPrototypeOf"; "propertyIsEnumerable";
    "toString"; "valueOf"; "__proto__"; "toLocaleString" ].

Definition inherited_key (key : string) : bool :=
  existsb (String.eqb key) inherited_keys.

(** The session id of the part of an event is no inherited property name. *)
Definition names_no_inherited_key (event : Event) : Prop :=
  match event with
  | message_part_updated part => inherited_key (part_sessionID part) = false
  | _ => True
  end.

(** ** Calls and notifications named in the further properties *)

Definition is_asked (c : Call) : bool :=
  match c with
  | Asked _ _ => true
  | Notified _ => false
  end.

(** What the event loop never writes: the flag and the mode of every session. *)
Definition session_settings (agent : Agent) : gmap string (bool * string) :=
  (fun session => (session_cancelled session, permissionMode session)) <$> sessions agent.

(** A tool part, by its state. *)
Definition tool_event (partId sessionID callID tool : string) (state : ToolState)
    (content : option (list ToolCallContent)) (locations : option (list string)) : Event :=
  message_part_updated
    (mkPart partId sessionID (PartTool callID tool state content locations)).

(** One of the four prefixes of the tools that edit. *)
Definition edit_prefix (tool : string) : bool :=
  startsWith tool "write" || startsWith tool "edit"
  || startsWith tool "apply" || startsWith tool "insert".

(** The replayed [agent_message_chunk]s that carry [text]. *)
Definition chunks_with_text (text : string) (sent : list ReplayNotification)
    : list ReplayNotification :=
  List.filter
    (fun u => match u with
              | replayed (mkNotification _ (agent_message_chunk (TextContent t))) =>
                  bool_decide (t = text)
              | _ => false
              end) sent.

(** * Properties *)

(** ** Tool kind inference *)

(** C7: [mapToolKind] is the first-matching-prefix lookup in the ordered table
    read→Read; write/edit/apply/insert→Edit; execute→Execute;
    search/list→Search; browser→Fetch; update/ask/new_task→Think;
    switch→SwitchMode; anything else→Other.  In particular read_file→Read,
    write_file→Edit, execute_bash→Execute, search_code→Search and
    unknown_tool→Other. *)
Theorem mapToolKind_first_matching_prefix :
  (forall toolName : string, mapToolKind toolName = kind_by_table toolName)
  /\ mapToolKind "read_file" = Read
  /\ mapToolKind "write_file" = Edit
  /\ mapToolKind "execute_bash" = Execute
  /\ mapToolKind "search_code" = Search
  /\ mapToolKind "unknown_tool" = Other.
Proof.
  split; [| repeat split; reflexivity].
  intros toolName.
  unfold mapToolKind, kind_by_table, kind_table, startsWith.
  cbn [first_matching_row existsb].
  repeat rewrite orb_false_r.
  repeat match goal with
         | |- context [String.prefix ?p toolName] =>
             destruct (String.prefix p toolName); cbn [orb]; try reflexivity
         end.
Qed.

(** ** Runs of client computations *)

Section Runs.

Variable answer : RequestPermissionRequest -> RequestPermissionOutcome.

Lemma run_bind {A B : Type} (m : Client A) (f : A -> Client B) :
  run answer (m ≫= f)
  = ((calls_of answer m ++ calls_of answer (f (result_of answer m)))%list,
     result_of answer (f (result_of answer m))).
Proof.
  unfold calls_of, result_of, mbind, Client_bind.
  induction m as [a | n k IH | r k IH]; cbn [bind run].
  - simpl. destruct (run answer (f a)); reflexivity.
  - rewrite IH. destruct (run answer k); reflexivity.
  - rewrite IH. destruct (run answer (k (answer r))); reflexivity.
Qed.

Lemma calls_of_bind {A B : Type} (m : Client A) (f : A -> Client B) :
  calls_of answer (m ≫= f)
  = (calls_of answer m ++ calls_of answer (f (result_of answer m)))%list.
Proof. unfold calls_of at 1. rewrite run_bind. reflexivity. Qed.

Lemma result_of_bind {A B : Type} (m : Client A) (f : A -> Client B) :
  result_of answer (m ≫= f) = result_of answer (f (result_of answer m)).
Proof. unfold result_of at 1. rewrite run_bind. reflexivity. Qed.

Lemma calls_of_sendAll (ns : list SessionNotification) :
  calls_of answer (sendAll ns) = map Notified ns.
Proof.
  induction ns as [| n ns IH]; [reflexivity |].
  cbn [sendAll map]. rewrite calls_of_bind, IH. reflexivity.
Qed.

End Runs.

(** Settle the tests of a known permission mode against the mode names. *)
Ltac decide_modes :=
  repeat first
    [ rewrite bool_decide_eq_true_2 by reflexivity
    | rewrite bool_decide_eq_false_2 by discriminate ].

(** ** Echo filter *)

(** C6: a [message.part.updated] event whose part is a text part without
    timestamp is dropped whatever its text, its identifiers and the state of
    the agent: the handler makes no call on the client (so no notification is
    emitted and no delta is computed) and returns the agent as it was. *)
Theorem echo_is_dropped :
  forall (agent : Agent) (partId sessionID text : string)
         (answer : RequestPermissionRequest -> RequestPermissionOutcome),
    let echo := message_part_updated (mkPart partId sessionID (PartText text None)) in
    handleEvent agent echo = Ret agent
    /\ run answer (handleEvent agent echo) = ([], agent).
Proof.
  intros agent partId sessionID text answer echo.
  split; reflexivity.
Qed.

(** ** Tool permission arbiter *)

(** The handler on a pending tool part of an existing session is the arbiter
    followed, unless it took a [continue], by the notification mapper. *)
Lemma handle_pending_tool (agent : Agent) (session : Session)
    (partId sessionID callID tool : string)
    (content : option (list ToolCallContent)) (locations : option (list string)) :
  sessions agent !! sessionID = Some session ->
  sessionID <> "" ->
  handleEvent agent (pending_tool_event partId sessionID callID tool content locations)
  = toolPermissionArbiter session sessionID callID tool content ≫= λ goes_on : bool,
    if goes_on
    then sendAll [mkNotification sessionID
                    (tool_call callID tool Pending (mapToolKind tool)
                       (default [] content) (Some (default [] locations)))];;
         mret agent
    else mret agent.
Proof.
  intros Hsession Hid.
  unfold pending_tool_event, handleEvent, handlePartUpdated.
  cbn [is_echo part_body part_sessionID].
  rewrite bool_decide_eq_false_2 by exact Hid.
  rewrite Hsession. reflexivity.
Qed.

(** C3: in plan mode a pending tool part (of an existing session, named by a
    session id that is not empty) yields exactly one call on the client, a
    [tool_call_update] with status [Failed] for the call id of the part, with
    the text "Tool execution blocked in Plan Mode."; there is no permission
    request and no other notification, and the agent is unchanged. *)
Theorem plan_mode_blocks_pending_tool :
  forall (agent : Agent) (session : Session)
         (partId sessionID callID tool : string)
         (content : option (list ToolCallContent)) (locations : option (list string))
         (answer : RequestPermissionRequest -> RequestPermissionOutcome),
    sessions agent !! sessionID = Some session ->
    sessionID <> "" ->
    permissionMode session = "plan" ->
    run answer
      (handleEvent agent (pending_tool_event partId sessionID callID tool content locations))
    = ([Notified
          (mkNotification sessionID
             (tool_call_update callID None Failed
                [Content (TextContent "Tool execution blocked in Plan Mode.")] None))],
       agent).
Proof.
  intros agent session partId sessionID callID tool content locations answer
    Hsession Hid Hmode.
  rewrite (handle_pending_tool agent session) by assumption.
  unfold toolPermissionArbiter, decidePermission.
  rewrite Hmode. reflexivity.
Qed.

Lemma plan_mode_blocks_pending_tool_witness :
  let session := mkSession false "plan" ∅ in
  let agent := mkAgent {["ses_1" := session]} ∅ in
  run (fun _ => outcome_cancelled)
    (handleEvent agent (pending_tool_event "prt_1" "ses_1" "call_1" "write_file" None None))
  = ([Notified
        (mkNotification "ses_1"
           (tool_call_update "call_1" None Failed
              [Content (TextContent "Tool execution blocked in Plan Mode.")] None))],
     agent).
Proof.
  intros session agent.
  apply (plan_mode_blocks_pending_tool agent session).
  - reflexivity.
  - discriminate.
  - reflexivity.
Defined.

(** C1: in bypassPermissions mode, and likewise in acceptEdits mode, a pending
    tool part (of an existing session, named by a session id that is not
    empty) makes the agent issue no permission request, but it emits two
    [tool_call] notifications with status [Pending] for the call id, not one:
    the arbiter sends the first and the notification mapper, reached because
    no [continue] ends the granted branch, sends the second. *)
Theorem auto_grant_notifies_pending_twice :
  forall (agent : Agent) (session : Session)
         (partId sessionID callID tool : string)
         (content : option (list ToolCallContent)) (locations : option (list string))
         (answer : RequestPermissionRequest -> RequestPermissionOutcome),
    sessions agent !! sessionID = Some session ->
    sessionID <> "" ->
    permissionMode session = "bypassPermissions" \/ permissionMode session = "acceptEdits" ->
    run answer
      (handleEvent agent (pending_tool_event partId sessionID callID tool content locations))
    = ([Notified
          (mkNotification sessionID
             (tool_call callID tool Pending (mapToolKind tool) (default [] content) None));
        Notified
          (mkNotification sessionID
             (tool_call callID tool Pending (mapToolKind tool) (default [] content)
                (Some (default [] locations))))],
       agent).
Proof.
  intros agent session partId sessionID callID tool content locations answer
    Hsession Hid Hmode.
  rewrite (handle_pending_tool agent session) by assumption.
  unfold toolPermissionArbiter, decidePermission.
  destruct Hmode as [Hmode | Hmode]; rewrite Hmode; reflexivity.
Qed.

Lemma auto_grant_notifies_pending_twice_witness :
  let session := mkSession false "bypassPermissions" ∅ in
  let agent := mkAgent {["ses_1" := session]} ∅ in
  run (fun _ => outcome_selected "allow_once")
    (handleEvent agent (pending_tool_event "prt_1" "ses_1" "call_1" "read_file" None None))
  = ([Notified (mkNotification "ses_1" (tool_call "call_1" "read_file" Pending Read [] None));
      Notified (mkNotification "ses_1" (tool_call "call_1" "read_file" Pending Read []
                                          (Some [])))],
     agent).
Proof.
  intros session agent.
  apply (auto_grant_notifies_pending_twice agent session
           "prt_1" "ses_1" "call_1" "read_file" None None).
  - reflexivity.
  - discriminate.
  - left. reflexivity.
Defined.

(** The test of the permission response, read as a proposition. *)
Lemma not_allowed_once_true (o : RequestPermissionOutcome) :
  o <> outcome_selected "allow_once" -> not_allowed_once o = true.
Proof.
  intros Hne. destruct o as [| optionId]; [reflexivity |].
  cbn [not_allowed_once]. rewrite bool_decide_eq_false_2; [reflexivity |].
  intros ->. apply Hne. reflexivity.
Qed.

(** C2: in default mode the arbiter announces a pending tool part (of an
    existing session, named by a session id that is not empty) and asks the
    client.  If the outcome is not a selected [allow_once], the handler
    emits a [tool_call_update] with status [Failed] for the call id and that
    is its last call for the event.  If the outcome is a selected
    [allow_once], the arbiter makes no call after the permission request: all
    that follows the request in the handler's run is what the notification
    mapper gives for the part. *)
Theorem default_mode_permission_outcome :
  forall (agent : Agent) (session : Session)
         (partId sessionID callID tool : string)
         (content : option (list ToolCallContent)) (locations : option (list string))
         (answer : RequestPermissionRequest -> RequestPermissionOutcome),
    sessions agent !! sessionID = Some session ->
    sessionID <> "" ->
    permissionMode session = "default" ->
    let event := pending_tool_event partId sessionID callID tool content locations in
    let part := mkPart partId sessionID (PartTool callID tool StatePending content locations) in
    let request :=
      mkPermissionRequest sessionID callID ("Allow agent to run tool: " ++ tool ++ "?")
        [ mkOption "allow_once" "Allow Once" "allow_once";
          mkOption "reject_once" "Deny" "reject_once" ] in
    let pending :=
      mkNotification sessionID
        (tool_call callID tool Pending (mapToolKind tool) (default [] content) None) in
    (answer request <> outcome_selected "allow_once" ->
     run answer (handleEvent agent event)
     = ([Notified pending;
         Asked request (answer request);
         Notified
           (mkNotification sessionID
              (tool_call_update callID None Failed
                 [Content (TextContent ("Permission for tool '" ++ tool ++ "' denied."))]
                 None))],
        agent))
    /\ (answer request = outcome_selected "allow_once" ->
        calls_of answer (toolPermissionArbiter session sessionID callID tool content)
        = [Notified pending; Asked request (outcome_selected "allow_once")]
        /\ run answer (handleEvent agent event)
           = (([Notified pending; Asked request (outcome_selected "allow_once")]
               ++ map Notified (toAcpNotifications placeholder_message part sessionID))%list,
              agent)).
Proof.
  intros agent session partId sessionID callID tool content locations answer
    Hsession Hid Hmode event part request pending.
  subst event. rewrite (handle_pending_tool agent session) by assumption.
  unfold toolPermissionArbiter, decidePermission.
  rewrite Hmode. decide_modes. cbn [orb negb].
  change (permission_request sessionID callID tool) with request.
  change (pending_tool_call sessionID callID tool content) with pending.
  split.
  - intros Hdeny. apply not_allowed_once_true in Hdeny.
    cbn. rewrite Hdeny. reflexivity.
  - intros Hallow. unfold calls_of. cbn. rewrite !Hallow. split; reflexivity.
Qed.

Lemma default_mode_permission_outcome_witness :
  let session := mkSession false "default" ∅ in
  let agent := mkAgent {["ses_1" := session]} ∅ in
  let event := pending_tool_event "prt_1" "ses_1" "call_1" "execute_bash" None None in
  let request :=
    mkPermissionRequest "ses_1" "call_1" "Allow agent to run tool: execute_bash?"
      [ mkOption "allow_once" "Allow Once" "allow_once";
        mkOption "reject_once" "Deny" "reject_once" ] in
  let pending :=
    mkNotification "ses_1" (tool_call "call_1" "execute_bash" Pending Execute [] None) in
  run (fun _ => outcome_selected "reject_once") (handleEvent agent event)
  = ([Notified pending;
      Asked request (outcome_selected "reject_once");
      Notified
        (mkNotification "ses_1"
           (tool_call_update "call_1" None Failed
              [Content (TextContent "Permission for tool 'execute_bash' denied.")] None))],
     agent)
  /\ calls_of (fun _ => outcome_selected "allow_once")
       (toolPermissionArbiter session "ses_1" "call_1" "execute_bash" None)
     = [Notified pending; Asked request (outcome_selected "allow_once")].
Proof.
  intros session agent event request pending. split.
  - apply (proj1 (default_mode_permission_outcome agent session
                    "prt_1" "ses_1" "call_1" "execute_bash" None None
                    (fun _ => outcome_selected "reject_once")
                    eq_refl ltac:(discriminate) eq_refl)).
    discriminate.
  - apply (proj2 (default_mode_permission_outcome agent session
                    "prt_1" "ses_1" "call_1" "execute_bash" None None
                    (fun _ => outcome_selected "allow_once")
                    eq_refl ltac:(discriminate) eq_refl)).
    reflexivity.
Defined.

(** ** Delta tracker *)

(** A text part with a timestamp or a reasoning part of an existing session
    goes through [streamDelta]. *)
Lemma handle_streamed_part (agent : Agent) (session : Session)
    (partId sessionID currentText : string) (body : PartBody) :
  sessions agent !! sessionID = Some session ->
  sessionID <> "" ->
  (exists time, body = PartText currentText (Some time)) \/ body = PartReasoning currentText ->
  handleEvent agent (message_part_updated (mkPart partId sessionID body))
  = streamDelta agent session sessionID partId currentText
      (if is_text body then agent_message_chunk else agent_thought_chunk).
Proof.
  intros Hsession Hid [[time ->] | ->];
    unfold handleEvent, handlePartUpdated;
    cbn [is_echo part_body part_sessionID part_id is_text];
    rewrite bool_decide_eq_false_2 by exact Hid;
    rewrite Hsession; reflexivity.
Qed.

(** C5: when the delta computed for a text or reasoning part update that the
    loop processes (a text part with a timestamp or a reasoning part, of an
    existing session) has length zero, the handler makes no call on the client
    for that update, and the text of the update is stored as the previous text
    of the part all the same. *)
Theorem zero_length_delta_is_not_forwarded :
  forall (agent : Agent) (session : Session)
         (partId sessionID currentText : string) (body : PartBody)
         (answer : RequestPermissionRequest -> RequestPermissionOutcome),
    sessions agent !! sessionID = Some session ->
    sessionID <> "" ->
    (exists time, body = PartText currentText (Some time)) \/ body = PartReasoning currentText ->
    String.length
      (substring_from (String.length (previousText session partId)) currentText) = 0%nat ->
    let run_ := run answer (handleEvent agent (message_part_updated (mkPart partId sessionID body))) in
    fst run_ = []
    /\ exists session',
         sessions (snd run_) !! sessionID = Some session'
         /\ lastSentTextByMessagePartId session' !! partId = Some currentText.
Proof.
  intros agent session partId sessionID currentText body answer
    Hsession Hid Hbody Hzero run_.
  subst run_.
  rewrite (handle_streamed_part agent session partId sessionID currentText body)
    by assumption.
  unfold streamDelta, deltaText. rewrite Hzero. cbn.
  split; [reflexivity |].
  exists (setLastSent session partId currentText). split.
  - apply lookup_insert_eq.
  - apply lookup_insert_eq.
Qed.

Lemma zero_length_delta_is_not_forwarded_witness :
  let session := mkSession false "default" {["prt_1" := "Hello"]} in
  let agent := mkAgent {["ses_1" := session]} ∅ in
  let run_ :=
    run (fun _ => outcome_cancelled)
      (handleEvent agent
         (message_part_updated (mkPart "prt_1" "ses_1" (PartReasoning "Hello")))) in
  fst run_ = []
  /\ exists session',
       sessions (snd run_) !! "ses_1" = Some session'
       /\ lastSentTextByMessagePartId session' !! "prt_1" = Some "Hello".
Proof.
  intros session agent.
  apply (zero_length_delta_is_not_forwarded agent session
           "prt_1" "ses_1" "Hello" (PartReasoning "Hello")).
  - reflexivity.
  - discriminate.
  - right. reflexivity.
  - reflexivity.
Defined.

(** *** Prefixes and suffixes of strings *)

Lemma prefix_cons_inv (c d : ascii) (a b : string) :
  String.prefix (String c a) (String d b) = true -> c = d /\ String.prefix a b = true.
Proof.
  cbn [String.prefix]. destruct (ascii_dec c d) as [-> | Hne]; [auto | discriminate].
Qed.

Lemma prefix_refl (a : string) : String.prefix a a = true.
Proof.
  induction a as [| c a IH]; [reflexivity |].
  cbn [String.prefix]. destruct (ascii_dec c c); [exact IH | congruence].
Qed.

Lemma prefix_trans (a b c : string) :
  String.prefix a b = true -> String.prefix b c = true -> String.prefix a c = true.
Proof.
  revert b c. induction a as [| x a IH]; intros b c Hab Hbc;
    [destruct c; reflexivity |].
  destruct b as [| y b]; [discriminate |].
  destruct c as [| z c]; [discriminate |].
  apply prefix_cons_inv in Hab as [-> Hab].
  apply prefix_cons_inv in Hbc as [-> Hbc].
  cbn [String.prefix]. destruct (ascii_dec z z); [| congruence].
  exact (IH b c Hab Hbc).
Qed.

Lemma substring_from_length (a : string) :
  substring_from (String.length a) a = "".
Proof. induction a as [| c a IH]; [reflexivity | exact IH]. Qed.

(** What was sent before, followed by the delta, is the new text. *)
Lemma prefix_append_delta (a b : string) :
  String.prefix a b = true -> a ++ substring_from (String.length a) b = b.
Proof.
  revert b. induction a as [| c a IH]; intros b Hab.
  - destruct b; reflexivity.
  - destruct b as [| d b]; [discriminate |].
    apply prefix_cons_inv in Hab as [-> Hab].
    cbn [String.length substring_from].
    change (String d (a ++ substring_from (String.length a) b) = String d b).
    f_equal. exact (IH b Hab).
Qed.

(** Two successive deltas make up the delta of the two steps. *)
Lemma delta_append_delta (p a b : string) :
  String.prefix p a = true ->
  String.prefix a b = true ->
  substring_from (String.length p) a ++ substring_from (String.length a) b
  = substring_from (String.length p) b.
Proof.
  revert a b. induction p as [| c p IH]; intros a b Hpa Hab.
  - cbn [String.length substring_from]. exact (prefix_append_delta a b Hab).
  - destruct a as [| x a]; [discriminate |].
    destruct b as [| y b]; [discriminate |].
    apply prefix_cons_inv in Hpa as [-> Hpa].
    apply prefix_cons_inv in Hab as [-> Hab].
    cbn [String.length substring_from]. exact (IH a b Hpa Hab).
Qed.

Lemma append_empty_r (a : string) : a ++ "" = a.
Proof.
  induction a as [| c a IH]; [reflexivity |].
  change (String c (a ++ "") = String c a). f_equal. exact IH.
Qed.

Lemma append_assoc (a b c : string) : a ++ (b ++ c) = (a ++ b) ++ c.
Proof.
  induction a as [| x a IH]; [reflexivity |].
  change (String x (a ++ (b ++ c)) = String x ((a ++ b) ++ c)). f_equal. exact IH.
Qed.

Lemma concat_texts_app (xs ys : list string) :
  concat_texts (xs ++ ys)%list = concat_texts xs ++ concat_texts ys.
Proof.
  unfold concat_texts. induction xs as [| x xs IH]; [reflexivity |].
  cbn [foldr app]. change ((x :: xs) ++ ys)%list with (x :: (xs ++ ys)%list).
  cbn [foldr]. rewrite IH. apply append_assoc.
Qed.

Lemma length_zero_empty (a : string) : String.length a = 0%nat -> a = "".
Proof. destruct a; [reflexivity | discriminate]. Qed.

(** *** Streams of snapshots *)

Lemma last_cons_default (text : string) (rest : list string) (prev : string) :
  default prev (last (text :: rest)) = default text (last rest).
Proof. rewrite last_cons. destruct (last rest); reflexivity. Qed.

Lemma prefix_chain_last (prev : string) (texts : list string) :
  prefix_chain prev texts -> String.prefix prev (default prev (last texts)) = true.
Proof.
  revert prev. induction texts as [| text rest IH]; intros prev Hchain.
  - apply prefix_refl.
  - destruct Hchain as [Hprev Hrest]. rewrite last_cons_default.
    exact (prefix_trans _ _ _ Hprev (IH text Hrest)).
Qed.

(** Snapshots that are prefixes of their successors, by index, form a chain
    from the empty text. *)
Lemma prefix_chain_of_successors (texts : list string) :
  (forall (i : nat) (a b : string),
      texts !! i = Some a -> texts !! S i = Some b -> String.prefix a b = true) ->
  prefix_chain "" texts.
Proof.
  assert (Hgen : forall prev : string,
             (forall (i : nat) (a b : string),
                 (prev :: texts) !! i = Some a -> (prev :: texts) !! S i = Some b ->
                 String.prefix a b = true) ->
             prefix_chain prev texts).
  { induction texts as [| text rest IH]; intros prev Hsucc; [exact I |].
    split.
    - exact (Hsucc 0%nat prev text eq_refl eq_refl).
    - apply IH. intros i a b Ha Hb. exact (Hsucc (S i) a b Ha Hb). }
  intros Hsucc. apply Hgen. intros [| i] a b Ha Hb.
  - injection Ha as <-. destruct b; reflexivity.
  - exact (Hsucc i a b Ha Hb).
Qed.

Section Stream.

Variable answer : RequestPermissionRequest -> RequestPermissionOutcome.
Variables sessionID partId : string.
Hypothesis sessionID_given : sessionID <> "".

Lemma previousText_setLastSent (session : Session) (text : string) :
  previousText (setLastSent session partId text) partId = text.
Proof.
  unfold previousText, setLastSent. cbn [lastSentTextByMessagePartId].
  rewrite lookup_insert_eq. unfold opt_str_or, str_or.
  destruct (decide (text = "")) as [-> | _]; reflexivity.
Qed.

Lemma run_text_event_delta (agent : Agent) (session : Session)
    (snapshot : string * PartTime) :
  sessions agent !! sessionID = Some session ->
  run answer (handleEvent agent (text_event sessionID partId snapshot))
  = (if (0 <? String.length (deltaText session partId (fst snapshot)))%nat
     then [message_chunk sessionID (deltaText session partId (fst snapshot))]
     else [],
     setSession agent sessionID (setLastSent session partId (fst snapshot))).
Proof.
  intros Hsession. unfold text_event.
  rewrite (handle_streamed_part agent session partId sessionID (fst snapshot));
    [| assumption | assumption | left; eexists; reflexivity].
  unfold streamDelta.
  destruct (0 <? String.length (deltaText session partId (fst snapshot)))%nat;
    reflexivity.
Qed.

(** One snapshot: the calls are the chunk of the delta, if it is not empty,
    and the snapshot becomes the previous text. *)
Lemma run_text_event (agent : Agent) (session : Session) (snapshot : string * PartTime) :
  sessions agent !! sessionID = Some session ->
  exists deltas : list string,
    run answer (handleEvent agent (text_event sessionID partId snapshot))
    = (map (message_chunk sessionID) deltas,
       setSession agent sessionID (setLastSent session partId (fst snapshot)))
    /\ concat_texts deltas = deltaText session partId (fst snapshot).
Proof.
  intros Hsession. rewrite (run_text_event_delta agent session snapshot Hsession).
  destruct (0 <? String.length (deltaText session partId (fst snapshot)))%nat eqn:Hlen.
  - exists [deltaText session partId (fst snapshot)]. split; [reflexivity |].
    unfold concat_texts. cbn [foldr]. apply append_empty_r.
  - exists []. split; [reflexivity |].
    apply Nat.ltb_ge in Hlen. symmetry. apply length_zero_empty. lia.
Qed.

(** A chain of snapshots: the deltas sent add up to the part of the last
    snapshot beyond the text stored before. *)
Lemma run_text_events (snapshots : list (string * PartTime)) :
  forall (agent : Agent) (session : Session),
    sessions agent !! sessionID = Some session ->
    prefix_chain (previousText session partId) (map fst snapshots) ->
    exists deltas : list string,
      calls_of answer (eventLoop agent (map (text_event sessionID partId) snapshots))
      = map (message_chunk sessionID) deltas
      /\ concat_texts deltas
         = substring_from (String.length (previousText session partId))
             (default (previousText session partId) (last (map fst snapshots))).
Proof.
  induction snapshots as [| snapshot rest IH]; intros agent session Hsession Hchain.
  - exists []. split; [reflexivity |].
    cbn [map last default]. symmetry. apply substring_from_length.
  - destruct Hchain as [Hprev Hrest].
    destruct (run_text_event agent session snapshot Hsession)
      as (deltas1 & Hrun1 & Hsum1).
    set (session' := setLastSent session partId (fst snapshot)).
    set (agent' := setSession agent sessionID session').
    assert (Hsession' : sessions agent' !! sessionID = Some session')
      by apply lookup_insert_eq.
    assert (Hprev' : previousText session' partId = fst snapshot)
      by apply previousText_setLastSent.
    destruct (IH agent' session' Hsession') as (deltas2 & Hrun2 & Hsum2).
    { rewrite Hprev'. exact Hrest. }
    exists (deltas1 ++ deltas2)%list. split.
    + subst agent' session'.
      cbn [map eventLoop]. rewrite calls_of_bind.
      unfold calls_of at 1, result_of. rewrite Hrun1. cbn [fst snd].
      rewrite Hrun2, map_app. reflexivity.
    + rewrite concat_texts_app, Hsum1, Hsum2, Hprev'.
      cbn [map]. rewrite last_cons_default.
      apply (delta_append_delta _ _ _ Hprev).
      exact (prefix_chain_last _ _ Hrest).
Qed.

End Stream.

(** C4: let the text snapshots t1, ..., tn of one part of an existing session
    arrive as text part updates, the part being new to the session and every
    snapshot a prefix of the next.  Then the event loop only emits
    [agent_message_chunk] notifications and their texts, the deltas,
    concatenate to tn.  In particular the snapshots "Hel" and "Hello" of a new
    part are emitted as the chunks "Hel" and "lo". *)
Theorem deltas_concatenate_to_last_snapshot :
  forall (agent : Agent) (session : Session) (sessionID partId : string)
         (snapshots : list (string * PartTime)) (tn : string)
         (answer : RequestPermissionRequest -> RequestPermissionOutcome),
    sessions agent !! sessionID = Some session ->
    sessionID <> "" ->
    lastSentTextByMessagePartId session !! partId = None ->
    (forall (i : nat) (a b : string),
        map fst snapshots !! i = Some a -> map fst snapshots !! S i = Some b ->
        String.prefix a b = true) ->
    last (map fst snapshots) = Some tn ->
    (exists deltas : list string,
        calls_of answer (eventLoop agent (map (text_event sessionID partId) snapshots))
        = map (message_chunk sessionID) deltas
        /\ concat_texts deltas = tn)
    /\ (forall time1 time2 : PartTime,
           calls_of answer
             (eventLoop agent
                [text_event sessionID partId ("Hel", time1);
                 text_event sessionID partId ("Hello", time2)])
           = [message_chunk sessionID "Hel"; message_chunk sessionID "lo"]).
Proof.
  intros agent session sessionID partId snapshots tn answer
    Hsession Hid Hfresh Hsucc Hlast.
  assert (Hprev : previousText session partId = "").
  { unfold previousText. rewrite Hfresh. reflexivity. }
  split.
  - destruct (run_text_events answer sessionID partId Hid snapshots agent session Hsession)
      as (deltas & Hcalls & Hsum).
    { rewrite Hprev. apply prefix_chain_of_successors. exact Hsucc. }
    exists deltas. split; [exact Hcalls |].
    rewrite Hsum, Hprev, Hlast. reflexivity.
  - intros time1 time2. cbn [eventLoop].
    rewrite calls_of_bind. unfold calls_of at 1, result_of.
    rewrite (run_text_event_delta answer sessionID partId Hid agent session _ Hsession).
    unfold deltaText at 1 2. rewrite Hprev. cbn [fst snd String.length substring_from Nat.ltb Nat.leb].
    rewrite calls_of_bind. unfold calls_of at 1.
    rewrite (run_text_event_delta answer sessionID partId Hid _
               (setLastSent session partId "Hel") _ (lookup_insert_eq _ _ _)).
    unfold deltaText. rewrite previousText_setLastSent. reflexivity.
Qed.

Lemma deltas_concatenate_to_last_snapshot_witness :
  let session := mkSession false "default" ∅ in
  let agent := mkAgent {["ses_1" := session]} ∅ in
  let snapshots := [("Hel", mkTime 1 None); ("Hello", mkTime 1 (Some 2%Z))] in
  (exists deltas : list string,
      calls_of (fun _ => outcome_cancelled)
        (eventLoop agent (map (text_event "ses_1" "prt_1") snapshots))
      = map (message_chunk "ses_1") deltas
      /\ concat_texts deltas = "Hello")
  /\ (forall time1 time2 : PartTime,
         calls_of (fun _ => outcome_cancelled)
           (eventLoop agent
              [text_event "ses_1" "prt_1" ("Hel", time1);
               text_event "ses_1" "prt_1" ("Hello", time2)])
         = [message_chunk "ses_1" "Hel"; message_chunk "ses_1" "lo"]).
Proof.
  intros session agent snapshots.
  apply (deltas_concatenate_to_last_snapshot agent session "ses_1" "prt_1" snapshots "Hello").
  - reflexivity.
  - discriminate.
  - reflexivity.
  - intros [| [| i]] a b Ha Hb; try discriminate.
    injection Ha as <-. injection Hb as <-. reflexivity.
  - reflexivity.
Defined.

(** ** setSessionMode *)

Lemma is_mode_spec (modeId : string) :
  is_mode modeId = true
  <-> modeId = "default" \/ modeId = "acceptEdits" \/ modeId = "plan"
      \/ modeId = "bypassPermissions".
Proof.
  unfold is_mode. rewrite !orb_true_iff, !bool_decide_eq_true. tauto.
Qed.

(** C10: for an existing session, [setSessionMode] with one of the mode ids
    default, acceptEdits, plan, bypassPermissions returns and leaves the
    session with exactly that permission mode, its other fields and all other
    sessions and terminals as they were; with any other mode id it throws and
    the agent is unchanged. *)
Theorem setSessionMode_sets_or_throws :
  forall (agent : Agent) (session : Session) (sessionId modeId : string),
    sessions agent !! sessionId = Some session ->
    (modeId = "default" \/ modeId = "acceptEdits" \/ modeId = "plan"
     \/ modeId = "bypassPermissions" ->
     exists agent',
       setSessionMode agent sessionId modeId = (agent', Returned tt)
       /\ sessions agent' !! sessionId
          = Some (mkSession (session_cancelled session) modeId
                    (lastSentTextByMessagePartId session))
       /\ (forall other, other <> sessionId ->
                         sessions agent' !! other = sessions agent !! other)
       /\ backgroundTerminals agent' = backgroundTerminals agent)
    /\ (~ (modeId = "default" \/ modeId = "acceptEdits" \/ modeId = "plan"
           \/ modeId = "bypassPermissions") ->
        setSessionMode agent sessionId modeId = (agent, Threw (Error "Invalid mode"))).
Proof.
  intros agent session sessionId modeId Hsession.
  unfold setSessionMode. rewrite Hsession. split.
  - intros Hmode. apply is_mode_spec in Hmode. rewrite Hmode.
    eexists. split; [reflexivity |]. split; [| split].
    + apply lookup_insert_eq.
    + intros other Hother. apply lookup_insert_ne. congruence.
    + reflexivity.
  - intros Hmode. destruct (is_mode modeId) eqn:His; [| reflexivity].
    exfalso. apply Hmode, is_mode_spec, His.
Qed.

Lemma setSessionMode_sets_or_throws_witness :
  let session := mkSession false "default" {["prt_1" := "Hello"]} in
  let agent := mkAgent {["ses_1" := session]} ∅ in
  (exists agent',
      setSessionMode agent "ses_1" "plan" = (agent', Returned tt)
      /\ sessions agent' !! "ses_1" = Some (mkSession false "plan" {["prt_1" := "Hello"]})
      /\ (forall other, other <> "ses_1" ->
                        sessions agent' !! other = sessions agent !! other)
      /\ backgroundTerminals agent' = backgroundTerminals agent)
  /\ setSessionMode agent "ses_1" "yolo" = (agent, Threw (Error "Invalid mode")).
Proof.
  intros session agent. split.
  - apply (proj1 (setSessionMode_sets_or_throws agent session "ses_1" "plan" eq_refl)).
    right. right. left. reflexivity.
  - apply (proj2 (setSessionMode_sets_or_throws agent session "ses_1" "yolo" eq_refl)).
    intros [H | [H | [H | H]]]; discriminate H.
Defined.

(** ** prompt *)

(** C9: when the prompt call on the upstream runtime returns a final message
    (data and no call error), [prompt] does not throw but returns a stop
    reason: [cancelled] when the message carries an error named
    MessageAbortedError, [refusal] when it carries an error of any other
    name, and [end_turn] when it carries no error. *)
Theorem prompt_maps_message_error_to_stop_reason :
  forall (session_prompt : string -> list PromptBlock -> UpstreamResponse PromptData)
         (handleCommand : string -> string -> string -> Result bool)
         (agent : Agent) (session : Session) (sessionId : string)
         (blocks : list PromptBlock) (promptData : PromptData),
    sessions agent !! sessionId = Some session ->
    (slash_command blocks = None
     \/ exists command args,
          slash_command blocks = Some (command, args)
          /\ handleCommand sessionId command args = Returned false) ->
    session_prompt sessionId blocks = mkResponse (Some promptData) None ->
    let result := snd (prompt session_prompt handleCommand agent sessionId blocks) in
    (forall error,
        msg_error (info promptData) = Some error ->
        (error_name error = "MessageAbortedError" -> result = Returned cancelled)
        /\ (error_name error <> "MessageAbortedError" -> result = Returned refusal))
    /\ (msg_error (info promptData) = None -> result = Returned end_turn).
Proof.
  intros session_prompt handleCommand agent session sessionId blocks promptData
    Hsession Hreach Hfinal result.
  assert (Hresult : result = Returned (stopReason_of promptData)).
  { subst result. unfold prompt. rewrite Hsession.
    destruct Hreach as [Hnone | (command & args & Hsome & Hunhandled)].
    - rewrite Hnone. cbn [snd]. unfold prompt_upstream. rewrite Hfinal. reflexivity.
    - rewrite Hsome, Hunhandled. cbn [snd]. unfold prompt_upstream.
      rewrite Hfinal. reflexivity. }
  rewrite Hresult. unfold stopReason_of. split.
  - intros error Herror. rewrite Herror. split; intros Hname.
    + rewrite bool_decide_eq_true_2 by exact Hname. reflexivity.
    + rewrite bool_decide_eq_false_2 by exact Hname. reflexivity.
  - intros Hnone. rewrite Hnone. reflexivity.
Qed.

Lemma prompt_maps_message_error_to_stop_reason_witness :
  let agent := mkAgent {["ses_1" := mkSession true "default" ∅]} ∅ in
  let aborted_message :=
    mkPromptData
      (mkAssistantMessage "ses_1" (Some (mkMessageError "MessageAbortedError" None "{}"))) in
  snd (prompt (fun _ _ => mkResponse (Some aborted_message) None)
         (fun _ _ _ => Returned true) agent "ses_1" [PromptText "hello"])
  = Returned cancelled.
Proof.
  intros agent aborted_message.
  apply (proj1 (prompt_maps_message_error_to_stop_reason
                  (fun _ _ => mkResponse (Some aborted_message) None)
                  (fun _ _ _ => Returned true)
                  agent (mkSession true "default" ∅) "ses_1" [PromptText "hello"]
                  aborted_message eq_refl (or_introl eq_refl) eq_refl)
               (mkMessageError "MessageAbortedError" None "{}") eq_refl).
  reflexivity.
Defined.

(** ** Background process tracker *)

(** The tracker assigns two statuses only: [started] in [createTerminal] and
    [killed] in ["terminal/kill"]. *)
Lemma reachable_statuses (agent : Agent) :
  reachable agent ->
  forall (terminalId : string) (terminal : BackgroundTerminal),
    backgroundTerminals agent !! terminalId = Some terminal ->
    status terminal = started \/ status terminal = killed.
Proof.
  induction 1 as [table | agent r Hreach IH Hfresh]; intros terminalId terminal Hlookup.
  - cbn in Hlookup. rewrite lookup_empty in Hlookup. discriminate.
  - destruct r as [tid shell | tid | tid | tid | tid]; cbn [serve] in Hlookup.
    + unfold createTerminal in Hlookup.
      destruct (response_error shell), (response_data shell) as [id |];
        cbn [fst] in Hlookup; eauto.
      destruct (bool_decide (id = "")); cbn [fst setTerminals backgroundTerminals] in Hlookup;
        eauto.
      apply lookup_insert_Some in Hlookup as [[_ <-] | [_ Hlookup]]; eauto.
    + unfold terminalOutput in Hlookup.
      destruct (backgroundTerminals agent !! tid); cbn [fst] in Hlookup; eauto.
    + unfold waitForTerminalExit in Hlookup.
      destruct (backgroundTerminals agent !! tid); cbn [fst] in Hlookup; eauto.
    + unfold terminal_kill in Hlookup.
      destruct (backgroundTerminals agent !! tid) as [t |];
        cbn [fst setTerminals backgroundTerminals] in Hlookup; eauto.
      apply lookup_insert_Some in Hlookup as [[_ <-] | [_ Hlookup]]; eauto.
    + unfold releaseTerminal in Hlookup.
      destruct (backgroundTerminals agent !! tid) as [t |];
        cbn [fst setTerminals backgroundTerminals] in Hlookup; eauto.
      apply lookup_delete_Some in Hlookup as [_ Hlookup]. eauto.
Qed.

(** ["terminal/kill"] marks an existing terminal [killed] whatever its status. *)
Lemma kill_marks_killed (agent : Agent) (terminalId : string) (terminal : BackgroundTerminal) :
  backgroundTerminals agent !! terminalId = Some terminal ->
  status_of (serve agent (KillTerminal terminalId)) terminalId = Some killed.
Proof.
  intros Hlookup. unfold status_of, serve, terminal_kill. rewrite Hlookup.
  cbn [fst setTerminals backgroundTerminals]. rewrite lookup_insert_eq. reflexivity.
Qed.

(** No request takes a terminal out of [killed]; [releaseTerminal] drops its record. *)
Lemma killed_after_serve (agent : Agent) (r : TerminalRequest) (terminalId : string) :
  fresh_id agent r ->
  status_of agent terminalId = Some killed ->
  status_of (serve agent r) terminalId = Some killed
  \/ (r = ReleaseTerminal terminalId /\ status_of (serve agent r) terminalId = None).
Proof.
  intros Hfresh Hkilled. unfold status_of in *.
  destruct (backgroundTerminals agent !! terminalId) as [terminal |] eqn:Hlookup;
    [| discriminate].
  destruct r as [tid shell | tid | tid | tid | tid]; cbn [serve fresh_id] in *.
  - left. unfold createTerminal.
    destruct (response_error shell), (response_data shell) as [id |];
      cbn [fst]; rewrite ?Hlookup; try exact Hkilled.
    destruct (bool_decide (id = "")); cbn [fst setTerminals backgroundTerminals];
      rewrite ?Hlookup; try exact Hkilled.
    rewrite lookup_insert_ne by congruence. rewrite Hlookup. exact Hkilled.
  - left. unfold terminalOutput.
    destruct (backgroundTerminals agent !! tid); cbn [fst]; rewrite Hlookup; exact Hkilled.
  - left. unfold waitForTerminalExit.
    destruct (backgroundTerminals agent !! tid); cbn [fst]; rewrite Hlookup; exact Hkilled.
  - left. unfold terminal_kill.
    destruct (backgroundTerminals agent !! tid) as [t |] eqn:Htid;
      cbn [fst setTerminals backgroundTerminals]; [| rewrite Hlookup; exact Hkilled].
    destruct (decide (tid = terminalId)) as [-> | Hne].
    + rewrite lookup_insert_eq. reflexivity.
    + rewrite lookup_insert_ne by exact Hne. rewrite Hlookup. exact Hkilled.
  - unfold releaseTerminal.
    destruct (backgroundTerminals agent !! tid) as [t |] eqn:Htid;
      cbn [fst setTerminals backgroundTerminals]; [| left; rewrite Hlookup; exact Hkilled].
    destruct (decide (tid = terminalId)) as [-> | Hne].
    + right. split; [reflexivity |]. rewrite lookup_delete_eq. reflexivity.
    + left. rewrite lookup_delete_ne by exact Hne. rewrite Hlookup. exact Hkilled.
Qed.

(** C8: for every background terminal of an agent reached through the
    operations of the tracker, once its status has left [started] no
    operation of the tracker changes its status again: after any request the
    terminal has the status it had, unless the request released that very
    terminal, whose record is then gone; in particular a kill request leaves
    the status as it is.  (Identifiers generated by [createTerminal] are
    new.) *)
Theorem terminal_status_is_never_left :
  forall (agent : Agent) (r : TerminalRequest) (terminalId : string) (s : TerminalStatus),
    reachable agent ->
    fresh_id agent r ->
    status_of agent terminalId = Some s ->
    s <> started ->
    (status_of (serve agent r) terminalId = Some s
     \/ (r = ReleaseTerminal terminalId /\ status_of (serve agent r) terminalId = None))
    /\ status_of (serve agent (KillTerminal terminalId)) terminalId = Some s.
Proof.
  intros agent r terminalId s Hreach Hfresh Hstatus Hleft.
  assert (Hs : s = killed).
  { unfold status_of in Hstatus.
    destruct (backgroundTerminals agent !! terminalId) as [terminal |] eqn:Hlookup;
      [| discriminate].
    injection Hstatus as <-.
    destruct (reachable_statuses agent Hreach terminalId terminal Hlookup); congruence. }
  subst s. split.
  - exact (killed_after_serve agent r terminalId Hfresh Hstatus).
  - unfold status_of in Hstatus.
    destruct (backgroundTerminals agent !! terminalId) as [terminal |] eqn:Hlookup;
      [| discriminate].
    exact (kill_marks_killed agent terminalId terminal Hlookup).
Qed.

Lemma terminal_status_is_never_left_witness :
  let created :=
    serve (mkAgent ∅ ∅) (CreateTerminal "term_1" (mkResponse (Some "shell_1") None)) in
  let agent := serve created (KillTerminal "term_1") in
  status_of agent "term_1" = Some killed
  /\ status_of (serve agent (TerminalOutput "term_1")) "term_1" = Some killed
  /\ status_of (serve agent (KillTerminal "term_1")) "term_1" = Some killed.
Proof.
  intros created agent.
  destruct (terminal_status_is_never_left agent (TerminalOutput "term_1") "term_1" killed)
    as ([Hstays | [Hreleased _]] & Hkill).
  - apply reachable_serve; [| exact I].
    apply reachable_serve; [apply reachable_init | reflexivity].
  - exact I.
  - reflexivity.
  - discriminate.
  - split; [reflexivity |]. split; [exact Hstays | exact Hkill].
  - discriminate Hreleased.
Defined.

(** * Further properties *)

(** ** The event loop, event by event *)

Lemma run_sendAll_then {A : Type}
    (answer : RequestPermissionRequest -> RequestPermissionOutcome)
    (ns : list SessionNotification) (a : A) :
  run answer (sendAll ns;; mret a) = (map Notified ns, a).
Proof.
  rewrite run_bind, calls_of_sendAll. cbn. rewrite app_nil_r. reflexivity.
Qed.

Lemma run_streamDelta (answer : RequestPermissionRequest -> RequestPermissionOutcome)
    (agent : Agent) (session : Session) (sessionID partId currentText : string)
    (chunk : ContentBlock -> SessionUpdate) :
  run answer (streamDelta agent session sessionID partId currentText chunk)
  = (map Notified
       (if (0 <? String.length (deltaText session partId currentText))%nat
        then [mkNotification sessionID
                (chunk (TextContent (deltaText session partId currentText)))]
        else []),
     setSession agent sessionID (setLastSent session partId currentText)).
Proof.
  unfold streamDelta.
  destruct (0 <? String.length (deltaText session partId currentText))%nat; reflexivity.
Qed.

(** An event for no session, or for a session the agent does not have, is
    dropped. *)
Lemma run_dropped (answer : RequestPermissionRequest -> RequestPermissionOutcome)
    (agent : Agent) (part : Part) :
  part_sessionID part = "" \/ sessions agent !! part_sessionID part = None ->
  run answer (handleEvent agent (message_part_updated part)) = ([], agent).
Proof.
  intros Hdrop. unfold handleEvent, handlePartUpdated.
  destruct (is_echo part); [reflexivity |].
  destruct (bool_decide (part_sessionID part = "")) eqn:Hid; [reflexivity |].
  apply bool_decide_eq_false in Hid.
  destruct Hdrop as [Hempty | Hnone]; [contradiction |].
  rewrite Hnone. reflexivity.
Qed.

(** The run of the handler on a pending tool part, by the permission mode. *)
Lemma run_pending_tool (answer : RequestPermissionRequest -> RequestPermissionOutcome)
    (agent : Agent) (session : Session) (partId sessionID callID tool : string)
    (content : option (list ToolCallContent)) (locations : option (list string)) :
  sessions agent !! sessionID = Some session ->
  sessionID <> "" ->
  let pending := pending_tool_call sessionID callID tool content in
  let mapped :=
    mkNotification sessionID
      (tool_call callID tool Pending (mapToolKind tool) (default [] content)
         (Some (default [] locations))) in
  let request := permission_request sessionID callID tool in
  run answer
    (handleEvent agent (pending_tool_event partId sessionID callID tool content locations))
  = (if bool_decide (permissionMode session = "bypassPermissions")
        || bool_decide (permissionMode session = "acceptEdits")
     then [Notified pending; Notified mapped]
     else if bool_decide (permissionMode session = "plan")
     then [Notified (blocked_in_plan_mode sessionID callID)]
     else if not_allowed_once (answer request)
     then [Notified pending; Asked request (answer request);
           Notified (permission_denied sessionID callID tool)]
     else [Notified pending; Asked request (answer request); Notified mapped],
     agent).
Proof.
  intros Hsession Hid pending mapped request.
  rewrite (handle_pending_tool agent session) by assumption.
  unfold toolPermissionArbiter, decidePermission.
  destruct (bool_decide (permissionMode session = "bypassPermissions")) eqn:Hbypass.
  { apply bool_decide_eq_true in Hbypass. rewrite Hbypass. reflexivity. }
  destruct (bool_decide (permissionMode session = "acceptEdits")) eqn:Haccept.
  { apply bool_decide_eq_true in Haccept. rewrite Haccept. reflexivity. }
  cbn [orb].
  destruct (bool_decide (permissionMode session = "plan")) eqn:Hplan; [reflexivity |].
  fold request. cbn.
  destruct (not_allowed_once (answer request)); reflexivity.
Qed.

(** A part that is no echo, no text, no reasoning and no pending tool goes to
    the notification mapper, whatever the permission mode. *)
Lemma run_mapped_part (answer : RequestPermissionRequest -> RequestPermissionOutcome)
    (agent : Agent) (session : Session) (partId sessionID : string) (body : PartBody) :
  sessions agent !! sessionID = Some session ->
  sessionID <> "" ->
  is_echo (mkPart partId sessionID body) = false ->
  (forall text time, body <> PartText text time) ->
  (forall text, body <> PartReasoning text) ->
  (forall callID tool content locations,
      body <> PartTool callID tool StatePending content locations) ->
  run answer (handleEvent agent (message_part_updated (mkPart partId sessionID body)))
  = (map Notified
       (toAcpNotifications placeholder_message (mkPart partId sessionID body) sessionID),
     agent).
Proof.
  intros Hsession Hid Hecho Htext Hreasoning Hpending.
  unfold handleEvent, handlePartUpdated. rewrite Hecho. cbn [part_sessionID part_body].
  rewrite bool_decide_eq_false_2 by exact Hid. rewrite Hsession.
  destruct body as [text time | text | callID tool [| title input | out | err] content locations
                   | mime filename url | hash files | | | | | type];
    try apply run_sendAll_then.
  - exfalso. exact (Htext text time eq_refl).
  - exfalso. exact (Hreasoning text eq_refl).
  - exfalso. exact (Hpending callID tool content locations eq_refl).
Qed.

(** The shape of every run of the handler: either notifications only, the
    agent unchanged or with one stored text replaced, or, for a pending tool
    part of a session that is in none of the modes bypassPermissions,
    acceptEdits and plan, the pending tool call, one permission request and
    then notifications only. *)
Lemma handle_event_shape (answer : RequestPermissionRequest -> RequestPermissionOutcome)
    (agent : Agent) (event : Event) :
  (exists ns agent',
      run answer (handleEvent agent event) = (map Notified ns, agent')
      /\ (agent' = agent
          \/ exists sessionID session partId text,
               sessions agent !! sessionID = Some session
               /\ agent' = setSession agent sessionID (setLastSent session partId text)))
  \/ (exists partId sessionID callID tool content locations session ns,
         event = pending_tool_event partId sessionID callID tool content locations
         /\ sessions agent !! sessionID = Some session
         /\ sessionID <> ""
         /\ permissionMode session <> "bypassPermissions"
         /\ permissionMode session <> "acceptEdits"
         /\ permissionMode session <> "plan"
         /\ run answer (handleEvent agent event)
            = (Notified (pending_tool_call sessionID callID tool content)
                 :: Asked (permission_request sessionID callID tool)
                      (answer (permission_request sessionID callID tool))
                 :: map Notified ns,
               agent)).
Proof.
  destruct event as [part | info | type];
    [| left; exists [], agent; split; [reflexivity | left; reflexivity] ..].
  destruct (decide (part_sessionID part = "")) as [Hempty | Hid].
  { left. exists [], agent. split; [| left; reflexivity].
    apply run_dropped. left. exact Hempty. }
  destruct (sessions agent !! part_sessionID part) as [session |] eqn:Hsession.
  2: { left. exists [], agent. split; [| left; reflexivity].
       apply run_dropped. right. exact Hsession. }
  destruct part as [partId sessionID body]. cbn [part_sessionID] in Hid, Hsession.
  pose proof (run_mapped_part answer agent session partId sessionID body Hsession Hid)
    as Hmapped.
  destruct body as [text [time |] | text | callID tool [| title input | out | err] content locations
                   | mime filename url | hash files | | | | | type].
  5-14: left; eexists _, agent;
    (split; [apply Hmapped; [reflexivity | discriminate ..] | left; reflexivity]).
  - left. eexists _, _. split.
    + rewrite (handle_streamed_part agent session partId sessionID text);
        [apply run_streamDelta | assumption | assumption | left; eexists; reflexivity].
    + right. exists sessionID, session, partId, text. split; [assumption | reflexivity].
  - left. exists [], agent. split; [reflexivity | left; reflexivity].
  - left. eexists _, _. split.
    + rewrite (handle_streamed_part agent session partId sessionID text);
        [apply run_streamDelta | assumption | assumption | right; reflexivity].
    + right. exists sessionID, session, partId, text. split; [assumption | reflexivity].
  - pose proof (run_pending_tool answer agent session partId sessionID callID tool
                  content locations Hsession Hid) as Hrun.
    cbv zeta in Hrun. fold (pending_tool_event partId sessionID callID tool content locations).
    destruct (bool_decide (permissionMode session = "bypassPermissions")) eqn:Hbypass.
    { left. eexists [_; _], agent. split; [exact Hrun | left; reflexivity]. }
    destruct (bool_decide (permissionMode session = "acceptEdits")) eqn:Haccept.
    { left. eexists [_; _], agent. split; [exact Hrun | left; reflexivity]. }
    cbn [orb] in Hrun.
    destruct (bool_decide (permissionMode session = "plan")) eqn:Hplan.
    { left. eexists [_], agent. split; [exact Hrun | left; reflexivity]. }
    apply bool_decide_eq_false in Hbypass, Haccept, Hplan.
    right. exists partId, sessionID, callID, tool, content, locations, session.
    destruct (not_allowed_once (answer (permission_request sessionID callID tool)));
      eexists [_]; repeat (split; [assumption || reflexivity |]); exact Hrun.
Qed.

Lemma result_of_eventLoop_cons
    (answer : RequestPermissionRequest -> RequestPermissionOutcome)
    (agent : Agent) (event : Event) (rest : list Event) :
  run answer (eventLoop agent (event :: rest))
  = ((calls_of answer (handleEvent agent event)
      ++ calls_of answer (eventLoop (result_of answer (handleEvent agent event)) rest))%list,
     result_of answer (eventLoop (result_of answer (handleEvent agent event)) rest)).
Proof. cbn [eventLoop]. apply run_bind. Qed.



Lemma settings_setLastSent (agent : Agent) (sessionID : string) (session : Session)
    (partId text : string) :
  sessions agent !! sessionID = Some session ->
  session_settings (setSession agent sessionID (setLastSent session partId text))
  = session_settings agent.
Proof.
  intros Hsession. unfold session_settings, setSession. cbn [sessions].
  rewrite fmap_insert. apply insert_id.
  rewrite lookup_fmap, Hsession. reflexivity.
Qed.

(** X2: the event loop writes nothing but stored texts: after any stream of
    events and whatever the client answers, every session has the cancelled
    flag and the permission mode it had, no session has been added or
    removed, and the background terminals are untouched. *)
Theorem eventLoop_keeps_settings :
  forall (events : list Event) (agent : Agent)
         (answer : RequestPermissionRequest -> RequestPermissionOutcome),
    let agent' := result_of answer (eventLoop agent events) in
    session_settings agent' = session_settings agent
    /\ dom (sessions agent') = dom (sessions agent)
    /\ backgroundTerminals agent' = backgroundTerminals agent.
Proof.
  intros events agent answer agent'.
  assert (Hkeeps : session_settings agent' = session_settings agent
                   /\ backgroundTerminals agent' = backgroundTerminals agent).
  { subst agent'. revert agent.
    induction events as [| event rest IH]; intros agent; [split; reflexivity |].
    unfold result_of. rewrite result_of_eventLoop_cons. cbn [snd].
    destruct (IH (result_of answer (handleEvent agent event))) as [IHs IHt].
    unfold result_of in *. rewrite IHs, IHt. clear IH IHs IHt.
    destruct (handle_event_shape answer agent event)
      as [(ns & next & Hrun & Hnext)
         | (partId & sid & callID & tool & content & locations & session & ns
            & _ & _ & _ & _ & _ & _ & Hrun)];
      rewrite Hrun; cbn [snd]; [| split; reflexivity].
    destruct Hnext as [-> | (sid & session & partId & text & Hsession & ->)];
      [split; reflexivity |].
    split; [apply settings_setLastSent; exact Hsession | reflexivity]. }
  destruct Hkeeps as [Hsettings Hterminals].
  split; [exact Hsettings |]. split; [| exact Hterminals].
  pose proof (f_equal dom Hsettings) as Hdom. unfold session_settings in Hdom.
  rewrite !dom_fmap_L in Hdom. exact Hdom.
Qed.




(** X4: a tool part that is running, completed or failed is forwarded in
    every permission mode, plan mode included: for a session the agent has,
    the handler sends exactly one [tool_call_update] for the call id, with
    status [InProgress], [Completed] or [Failed] by the state of the part,
    asks nothing and leaves the agent unchanged. *)
Theorem tool_progress_is_forwarded_in_every_mode :
  forall (agent : Agent) (session : Session) (partId sessionID callID tool : string)
         (state : ToolState) (content : option (list ToolCallContent))
         (locations : option (list string))
         (answer : RequestPermissionRequest -> RequestPermissionOutcome),
    sessions agent !! sessionID = Some session ->
    sessionID <> "" ->
    state <> StatePending ->
    exists title shown where_,
      run answer (handleEvent agent (tool_event partId sessionID callID tool state
                                       content locations))
      = ([Notified
            (mkNotification sessionID
               (tool_call_update callID title
                  match state with
                  | StateRunning _ _ => InProgress
                  | StateCompleted _ => Completed
                  | _ => Failed
                  end shown where_))],
         agent).
Proof.
  intros agent session partId sessionID callID tool state content locations answer
    Hsession Hid Hstate.
  unfold tool_event.
  rewrite (run_mapped_part answer agent session) by
    (try assumption; try reflexivity; try discriminate; congruence).
  unfold toAcpNotifications, part_update. cbn [part_body msg_error placeholder_message].
  destruct state as [| title input | [path oldText newText json | json] | err].
  - contradiction.
  - eexists _, _, _. reflexivity.
  - destruct (decide (mapToolKind tool = Edit)); eexists _, _, _; reflexivity.
  - eexists _, _, _. reflexivity.
  - eexists _, _, _. reflexivity.
Qed.

Lemma tool_progress_is_forwarded_in_every_mode_witness :
  let agent := mkAgent {["ses_1" := mkSession false "plan" ∅]} ∅ in
  exists title shown where_,
    run (fun _ => outcome_cancelled)
      (handleEvent agent
         (tool_event "prt_1" "ses_1" "call_1" "write_file"
            (StateCompleted (OutputJson "done")) None None))
    = ([Notified (mkNotification "ses_1"
                    (tool_call_update "call_1" title Completed shown where_))],
       agent).
Proof.
  intros agent.
  apply (tool_progress_is_forwarded_in_every_mode agent (mkSession false "plan" ∅)
           "prt_1" "ses_1" "call_1" "write_file" (StateCompleted (OutputJson "done"))).
  - reflexivity.
  - discriminate.
  - discriminate.
Defined.

Lemma substring_from_split (n : nat) (s : string) :
  exists head,
    s = head ++ substring_from n s /\ String.length head = Nat.min n (String.length s).
Proof.
  revert s. induction n as [| n IH]; intros s.
  - exists "". split; reflexivity.
  - destruct s as [| c s].
    + exists "". split; reflexivity.
    + destruct (IH s) as (head & Hsplit & Hlen).
      exists (String c head). split.
      * cbn [substring_from].
        change (String c s = String c (head ++ substring_from n s)). f_equal. exact Hsplit.
      * cbn [String.length Nat.min]. rewrite Hlen. reflexivity.
Qed.

Lemma length_substring_from (n : nat) (s : string) :
  String.length (substring_from n s) = (String.length s - n)%nat.
Proof.
  revert s. induction n as [| n IH]; intros s.
  - cbn [substring_from]. lia.
  - destruct s as [| c s]; [reflexivity |]. cbn [substring_from String.length]. apply IH.
Qed.

(** X5: what a text or reasoning update sends does not depend on the new text
    extending the old one, only on the lengths.  When the new text is no
    longer than the text stored for the part, nothing is sent (a correction
    of equal or smaller length is lost); when it is longer, exactly one chunk
    is sent, and it is the new text without its first n characters, n being
    the length of the stored text. *)
Theorem delta_is_cut_by_length :
  forall (agent : Agent) (session : Session)
         (partId sessionID currentText : string) (body : PartBody)
         (answer : RequestPermissionRequest -> RequestPermissionOutcome),
    sessions agent !! sessionID = Some session ->
    sessionID <> "" ->
    (exists time, body = PartText currentText (Some time)) \/ body = PartReasoning currentText ->
    let stored := opt_str_or (lastSentTextByMessagePartId session !! partId) "" in
    let calls :=
      calls_of answer (handleEvent agent (message_part_updated (mkPart partId sessionID body))) in
    ((String.length currentText <= String.length stored)%nat -> calls = [])
    /\ ((String.length stored < String.length currentText)%nat ->
        exists head delta,
          currentText = head ++ delta
          /\ String.length head = String.length stored
          /\ calls
             = [Notified
                  (mkNotification sessionID
                     ((if is_text body then agent_message_chunk else agent_thought_chunk)
                        (TextContent delta)))]).
Proof.
  intros agent session partId sessionID currentText body answer
    Hsession Hid Hbody stored calls.
  subst calls stored. unfold calls_of.
  rewrite (handle_streamed_part agent session partId sessionID currentText body)
    by assumption.
  rewrite run_streamDelta. cbn [fst]. unfold deltaText, previousText.
  set (stored := opt_str_or (lastSentTextByMessagePartId session !! partId) "").
  pose proof (length_substring_from (String.length stored) currentText) as Hlen.
  clearbody stored.
  split; intros Hcmp.
  - replace (0 <? _)%nat with false; [reflexivity |].
    symmetry. apply Nat.ltb_ge. rewrite Hlen. lia.
  - replace (0 <? _)%nat with true by (symmetry; apply Nat.ltb_lt; rewrite Hlen; lia).
    destruct (substring_from_split (String.length stored) currentText)
      as (head & Hsplit & Hhead).
    exists head, (substring_from (String.length stored) currentText).
    split; [exact Hsplit |]. split; [lia | reflexivity].
Qed.

Lemma delta_is_cut_by_length_witness :
  let session := mkSession false "default" {["prt_1" := "Hello"]} in
  let agent := mkAgent {["ses_1" := session]} ∅ in
  calls_of (fun _ => outcome_cancelled)
    (handleEvent agent
       (message_part_updated (mkPart "prt_1" "ses_1" (PartText "Jello" (Some (mkTime 1 None))))))
  = [].
Proof.
  intros session agent.
  apply (proj1 (delta_is_cut_by_length agent session "prt_1" "ses_1" "Jello"
                  (PartText "Jello" (Some (mkTime 1 None))) (fun _ => outcome_cancelled)
                  eq_refl ltac:(discriminate)
                  (or_introl (ex_intro _ (mkTime 1 None) eq_refl)))).
  vm_compute. lia.
Defined.

Lemma setLastSent_again (agent : Agent) (session : Session)
    (sessionID partId text : string) :
  setSession (setSession agent sessionID (setLastSent session partId text)) sessionID
    (setLastSent (setLastSent session partId text) partId text)
  = setSession agent sessionID (setLastSent session partId text).
Proof.
  unfold setSession, setLastSent.
  cbn [sessions backgroundTerminals session_cancelled permissionMode
         lastSentTextByMessagePartId].
  rewrite !insert_insert_eq. reflexivity.
Qed.

(** X6: delivering the same snapshot of a text or reasoning part twice is the
    same as delivering it once: the second update sends nothing and leaves
    the agent as the first left it. *)
Theorem repeated_snapshot_is_idempotent :
  forall (agent : Agent) (session : Session)
         (partId sessionID currentText : string) (body : PartBody)
         (answer : RequestPermissionRequest -> RequestPermissionOutcome),
    sessions agent !! sessionID = Some session ->
    sessionID <> "" ->
    (exists time, body = PartText currentText (Some time)) \/ body = PartReasoning currentText ->
    let event := message_part_updated (mkPart partId sessionID body) in
    run answer (eventLoop agent [event; event]) = run answer (eventLoop agent [event]).
Proof.
  intros agent session partId sessionID currentText body answer
    Hsession Hid Hbody event.
  assert (Hfirst : run answer (handleEvent agent event)
                   = (map Notified
                        (if (0 <? String.length (deltaText session partId currentText))%nat
                         then [mkNotification sessionID
                                 ((if is_text body then agent_message_chunk
                                   else agent_thought_chunk)
                                    (TextContent (deltaText session partId currentText)))]
                         else []),
                      setSession agent sessionID (setLastSent session partId currentText))).
  { subst event.
    rewrite (handle_streamed_part agent session partId sessionID currentText body)
      by assumption.
    apply run_streamDelta. }
  remember (setSession agent sessionID (setLastSent session partId currentText))
    as agent1 eqn:Hagent1.
  assert (Hsecond : run answer (handleEvent agent1 event) = ([], agent1)).
  { subst event.
    rewrite (handle_streamed_part agent1 (setLastSent session partId currentText)
               partId sessionID currentText body);
      [| subst agent1; apply lookup_insert_eq | assumption | assumption].
    rewrite run_streamDelta. unfold deltaText at 1 2.
    rewrite previousText_setLastSent, substring_from_length.
    cbn [String.length Nat.ltb Nat.leb map].
    subst agent1. rewrite setLastSent_again. reflexivity. }
  rewrite !result_of_eventLoop_cons. unfold calls_of, result_of.
  rewrite Hfirst. cbn [fst snd].
  rewrite result_of_eventLoop_cons. unfold calls_of, result_of.
  rewrite Hsecond. reflexivity.
Qed.

Lemma repeated_snapshot_is_idempotent_witness :
  let agent := mkAgent {["ses_1" := mkSession false "default" ∅]} ∅ in
  let event := message_part_updated (mkPart "prt_1" "ses_1" (PartReasoning "Hmm")) in
  run (fun _ => outcome_cancelled) (eventLoop agent [event; event])
  = run (fun _ => outcome_cancelled) (eventLoop agent [event]).
Proof.
  intros agent event.
  apply (repeated_snapshot_is_idempotent agent (mkSession false "default" ∅)
           "prt_1" "ses_1" "Hmm" (PartReasoning "Hmm")).
  - reflexivity.
  - discriminate.
  - right. reflexivity.
Defined.

(** X7: reasoning has two downstream shapes.  In the event loop a reasoning
    part of a session the agent has is only ever sent as an
    [agent_thought_chunk] carrying the delta, while the notification mapper,
    which replays history, turns the same part into a [plan] update with one
    entry of medium priority and pending status carrying the whole text. *)
Theorem reasoning_is_thought_live_and_plan_in_replay :
  forall (agent : Agent) (session : Session) (partId sessionID text : string)
         (answer : RequestPermissionRequest -> RequestPermissionOutcome),
    sessions agent !! sessionID = Some session ->
    sessionID <> "" ->
    let part := mkPart partId sessionID (PartReasoning text) in
    (forall n,
        In (Notified n) (calls_of answer (handleEvent agent (message_part_updated part))) ->
        n = mkNotification sessionID
              (agent_thought_chunk
                 (TextContent
                    (substring_from (String.length (previousText session partId)) text))))
    /\ toAcpNotifications placeholder_message part sessionID
       = [mkNotification sessionID (plan [mkPlanEntry text Medium PlanPending])].
Proof.
  intros agent session partId sessionID text answer Hsession Hid part.
  split; [| reflexivity].
  intros n Hin. unfold calls_of in Hin. subst part.
  rewrite (handle_streamed_part agent session partId sessionID text (PartReasoning text))
    in Hin; [| assumption | assumption | right; reflexivity].
  rewrite run_streamDelta in Hin. cbn [fst is_text] in Hin.
  destruct (0 <? String.length (deltaText session partId text))%nat;
    cbn in Hin; [| contradiction].
  destruct Hin as [Hin | []]. injection Hin as <-. reflexivity.
Qed.

Lemma reasoning_is_thought_live_and_plan_in_replay_witness :
  let agent := mkAgent {["ses_1" := mkSession false "default" {["prt_1" := "Let"]}]} ∅ in
  let part := mkPart "prt_1" "ses_1" (PartReasoning "Let me see") in
  (forall n,
      In (Notified n)
        (calls_of (fun _ => outcome_cancelled) (handleEvent agent (message_part_updated part))) ->
      n = mkNotification "ses_1" (agent_thought_chunk (TextContent " me see")))
  /\ toAcpNotifications placeholder_message part "ses_1"
     = [mkNotification "ses_1" (plan [mkPlanEntry "Let me see" Medium PlanPending])].
Proof.
  intros agent part.
  exact (reasoning_is_thought_live_and_plan_in_replay agent
           (mkSession false "default" {["prt_1" := "Let"]}) "prt_1" "ses_1" "Let me see"
           (fun _ => outcome_cancelled) eq_refl ltac:(discriminate)).
Defined.

(** The calls of the handler for a part depend on the session of the part
    through its permission mode and its stored texts only. *)
Lemma calls_by_session (answer : RequestPermissionRequest -> RequestPermissionOutcome)
    (agent1 agent2 : Agent) (session1 session2 : Session)
    (partId sessionID : string) (body : PartBody) :
  sessions agent1 !! sessionID = Some session1 ->
  sessions agent2 !! sessionID = Some session2 ->
  permissionMode session1 = permissionMode session2 ->
  lastSentTextByMessagePartId session1 = lastSentTextByMessagePartId session2 ->
  sessionID <> "" ->
  calls_of answer (handleEvent agent1 (message_part_updated (mkPart partId sessionID body)))
  = calls_of answer (handleEvent agent2 (message_part_updated (mkPart partId sessionID body))).
Proof.
  intros Hsession1 Hsession2 Hmode Hstore Hid. unfold calls_of.
  pose proof (run_mapped_part answer agent1 session1 partId sessionID body Hsession1 Hid)
    as Hmapped1.
  pose proof (run_mapped_part answer agent2 session2 partId sessionID body Hsession2 Hid)
    as Hmapped2.
  destruct body as [text [time |] | text | callID tool [| title input | out | err] content locations
                   | mime filename url | hash files | | | | | type].
  5-14: rewrite Hmapped1, Hmapped2 by (reflexivity || discriminate); reflexivity.
  - rewrite (handle_streamed_part agent1 session1 partId sessionID text);
      [| assumption | assumption | left; eexists; reflexivity].
    rewrite (handle_streamed_part agent2 session2 partId sessionID text);
      [| assumption | assumption | left; eexists; reflexivity].
    rewrite !run_streamDelta. unfold deltaText, previousText. rewrite Hstore. reflexivity.
  - reflexivity.
  - rewrite (handle_streamed_part agent1 session1 partId sessionID text);
      [| assumption | assumption | right; reflexivity].
    rewrite (handle_streamed_part agent2 session2 partId sessionID text);
      [| assumption | assumption | right; reflexivity].
    rewrite !run_streamDelta. unfold deltaText, previousText. rewrite Hstore. reflexivity.
  - fold (pending_tool_event partId sessionID callID tool content locations).
    rewrite (run_pending_tool answer agent1 session1) by assumption.
    rewrite (run_pending_tool answer agent2 session2) by assumption.
    cbv zeta. rewrite Hmode. reflexivity.
Qed.

(** X8: the cancelled flag is advisory.  For session ids that are no
    inherited property names, what the handler sends and asks for an event
    is the same after [cancel] as before it, whether or not the agent has the
    session cancelled and however the abort call ends. *)
Theorem cancel_does_not_silence_events :
  forall (agent : Agent) (sessionId : string) (abort : Result unit) (event : Event)
         (answer : RequestPermissionRequest -> RequestPermissionOutcome),
    inherited_key sessionId = false ->
    names_no_inherited_key event ->
    calls_of answer (handleEvent (fst (cancel agent sessionId abort)) event)
    = calls_of answer (handleEvent agent event).
Proof.
  intros agent sessionId abort event answer _ _. unfold cancel.
  destruct (sessions agent !! sessionId) as [session |] eqn:Hsession; [| reflexivity].
  cbn [fst].
  destruct event as [[partId sessionID body] | info | type]; [| reflexivity ..].
  destruct (decide (sessionID = "")) as [Hempty | Hid].
  { unfold calls_of. rewrite !run_dropped by (left; exact Hempty). reflexivity. }
  destruct (decide (sessionId = sessionID)) as [<- | Hother].
  - apply (calls_by_session answer _ _ (setCancelled session true) session);
      [apply lookup_insert_eq | assumption | reflexivity | reflexivity | assumption].
  - destruct (sessions agent !! sessionID) as [other |] eqn:Hlookup.
    + apply (calls_by_session answer _ _ other other);
        [| assumption | reflexivity | reflexivity | assumption].
      unfold setSession. cbn [sessions]. rewrite lookup_insert_ne by exact Hother.
      exact Hlookup.
    + unfold calls_of. rewrite !run_dropped; [reflexivity | right; exact Hlookup |].
      right. unfold setSession. cbn [sessions part_sessionID].
      rewrite lookup_insert_ne by exact Hother. exact Hlookup.
Qed.

Lemma cancel_does_not_silence_events_witness :
  let agent := mkAgent {["ses_1" := mkSession false "default" {["prt_1" := "Hel"]}]} ∅ in
  let event :=
    message_part_updated (mkPart "prt_1" "ses_1" (PartText "Hello" (Some (mkTime 1 None)))) in
  calls_of (fun _ => outcome_cancelled)
    (handleEvent (fst (cancel agent "ses_1" (Returned tt))) event)
  = [message_chunk "ses_1" "lo"].
Proof.
  intros agent event.
  rewrite (cancel_does_not_silence_events agent "ses_1" (Returned tt) event
             (fun _ => outcome_cancelled) eq_refl eq_refl).
  reflexivity.
Defined.



(** X10: the mode stored by [setSessionMode] governs the next pending tool
    part of the session: after "plan" the tool is blocked with one Failed
    update, after "bypassPermissions" or "acceptEdits" the client is not
    asked, after "default" the client is asked, and after a mode id that is
    refused the handler behaves as before the request. *)
Theorem setSessionMode_governs_next_pending_tool :
  forall (agent : Agent) (session : Session) (partId sessionID callID tool : string)
         (content : option (list ToolCallContent)) (locations : option (list string))
         (answer : RequestPermissionRequest -> RequestPermissionOutcome),
    sessions agent !! sessionID = Some session ->
    sessionID <> "" ->
    let event := pending_tool_event partId sessionID callID tool content locations in
    let after modeId := fst (setSessionMode agent sessionID modeId) in
    calls_of answer (handleEvent (after "plan") event)
    = [Notified
         (mkNotification sessionID
            (tool_call_update callID None Failed
               [Content (TextContent "Tool execution blocked in Plan Mode.")] None))]
    /\ List.filter is_asked (calls_of answer (handleEvent (after "bypassPermissions") event)) = []
    /\ List.filter is_asked (calls_of answer (handleEvent (after "acceptEdits") event)) = []
    /\ List.filter is_asked (calls_of answer (handleEvent (after "default") event))
       = [Asked (permission_request sessionID callID tool)
            (answer (permission_request sessionID callID tool))]
    /\ (forall modeId, is_mode modeId = false ->
                       handleEvent (after modeId) event = handleEvent agent event).
Proof.
  intros agent session partId sessionID callID tool content locations answer
    Hsession Hid event after.
  assert (Hafter : forall modeId,
             is_mode modeId = true ->
             sessions (after modeId) !! sessionID = Some (setPermissionMode session modeId)).
  { intros modeId Hmode. subst after. cbv beta. unfold setSessionMode.
    rewrite Hsession, Hmode. cbn [fst]. apply lookup_insert_eq. }
  unfold calls_of. subst event.
  repeat split.
  - pose proof (Hafter "plan" eq_refl) as Hlookup.
    rewrite (run_pending_tool answer _ _ partId sessionID callID tool content locations
               Hlookup Hid).
    reflexivity.
  - pose proof (Hafter "bypassPermissions" eq_refl) as Hlookup.
    rewrite (run_pending_tool answer _ _ partId sessionID callID tool content locations
               Hlookup Hid).
    reflexivity.
  - pose proof (Hafter "acceptEdits" eq_refl) as Hlookup.
    rewrite (run_pending_tool answer _ _ partId sessionID callID tool content locations
               Hlookup Hid).
    reflexivity.
  - pose proof (Hafter "default" eq_refl) as Hlookup.
    rewrite (run_pending_tool answer _ _ partId sessionID callID tool content locations
               Hlookup Hid).
    cbv zeta. cbn [permissionMode setPermissionMode]. decide_modes. cbn [orb fst].
    destruct (not_allowed_once _); reflexivity.
  - intros modeId Hrefused. subst after. cbv beta. unfold setSessionMode.
    rewrite Hsession, Hrefused. reflexivity.
Qed.

Lemma setSessionMode_governs_next_pending_tool_witness :
  let agent := mkAgent {["ses_1" := mkSession false "default" ∅]} ∅ in
  let event := pending_tool_event "prt_1" "ses_1" "call_1" "execute_bash" None None in
  calls_of (fun _ => outcome_selected "allow_once")
    (handleEvent (fst (setSessionMode agent "ses_1" "plan")) event)
  = [Notified
       (mkNotification "ses_1"
          (tool_call_update "call_1" None Failed
             [Content (TextContent "Tool execution blocked in Plan Mode.")] None))].
Proof.
  intros agent event.
  exact (proj1 (setSessionMode_governs_next_pending_tool agent
                  (mkSession false "default" ∅) "prt_1" "ses_1" "call_1" "execute_bash"
                  None None (fun _ => outcome_selected "allow_once")
                  eq_refl ltac:(discriminate))).
Defined.

Lemma free_of_separator (sep : ascii) (piece : string) :
  forallb (fun c => negb (Ascii.eqb c sep)) (list_ascii_of_string piece) = true ->
  forall a b, piece <> a ++ String sep b.
Proof.
  induction piece as [| c piece IH]; intros Hfree a b Heq.
  - destruct a; discriminate Heq.
  - cbn [list_ascii_of_string forallb] in Hfree.
    apply andb_true_iff in Hfree as [Hc Hfree].
    destruct a as [| d a].
    + change (String c piece = String sep b) in Heq. injection Heq as -> _.
      rewrite Ascii.eqb_refl in Hc. discriminate Hc.
    + change (String c piece = String d (a ++ String sep b)) in Heq.
      injection Heq as _ Heq. exact (IH Hfree a b Heq).
Qed.

(** ** prompt and cancel *)

Lemma prefix_cons_inv_iff (c d : ascii) (a b : string) :
  String.prefix (String c a) (String d b) = true <-> c = d /\ String.prefix a b = true.
Proof.
  split; [apply prefix_cons_inv |].
  intros [-> Hab]. cbn [String.prefix]. destruct (ascii_dec d d); [exact Hab | congruence].
Qed.

(** Whatever its outcome, [prompt] on a session the agent has clears the
    cancelled flag of that session and writes nothing else. *)
Lemma prompt_clears_flag
    (session_prompt : string -> list PromptBlock -> UpstreamResponse PromptData)
    (handleCommand : string -> string -> string -> Result bool)
    (agent : Agent) (session : Session) (sessionId : string) (blocks : list PromptBlock) :
  sessions agent !! sessionId = Some session ->
  fst (prompt session_prompt handleCommand agent sessionId blocks)
  = setSession agent sessionId (setCancelled session false).
Proof.
  intros Hsession. unfold prompt. rewrite Hsession.
  destruct (slash_command blocks) as [[command args] |]; [| reflexivity].
  destruct (handleCommand sessionId command args) as [[|] | e]; reflexivity.
Qed.

(** X11: [cancel] marks the session cancelled, and nothing more, before the
    abort call is made, so the mark is there however that call ends; the next
    [prompt] on the session clears the mark again whether it returns or
    throws.  Permission mode, stored texts, the other sessions and the
    terminals are as before. *)
Theorem cancel_marks_and_prompt_clears :
  forall (session_prompt : string -> list PromptBlock -> UpstreamResponse PromptData)
         (handleCommand : string -> string -> string -> Result bool)
         (agent : Agent) (session : Session) (sessionId : string)
         (blocks : list PromptBlock) (abort : Result unit),
    sessions agent !! sessionId = Some session ->
    let marked := fst (cancel agent sessionId abort) in
    let cleared := fst (prompt session_prompt handleCommand marked sessionId blocks) in
    snd (cancel agent sessionId abort) = abort
    /\ sessions marked !! sessionId
       = Some (mkSession true (permissionMode session) (lastSentTextByMessagePartId session))
    /\ sessions cleared !! sessionId
       = Some (mkSession false (permissionMode session) (lastSentTextByMessagePartId session))
    /\ (forall other, other <> sessionId ->
                      sessions cleared !! other = sessions agent !! other)
    /\ backgroundTerminals cleared = backgroundTerminals agent.
Proof.
  intros session_prompt handleCommand agent session sessionId blocks abort
    Hsession marked cleared.
  assert (Hmarked : marked = setSession agent sessionId (setCancelled session true)).
  { subst marked. unfold cancel. rewrite Hsession. reflexivity. }
  assert (Hcleared : cleared
                     = setSession marked sessionId
                         (setCancelled (setCancelled session true) false)).
  { subst cleared. apply prompt_clears_flag. rewrite Hmarked. apply lookup_insert_eq. }
  split; [unfold cancel; rewrite Hsession; reflexivity |].
  split; [rewrite Hmarked; apply lookup_insert_eq |].
  split; [rewrite Hcleared; apply lookup_insert_eq |].
  split; [| rewrite Hcleared, Hmarked; reflexivity].
  intros other Hother. rewrite Hcleared, Hmarked. unfold setSession. cbn [sessions].
  rewrite !lookup_insert_ne by congruence. reflexivity.
Qed.

Lemma cancel_marks_and_prompt_clears_witness :
  let session := mkSession false "plan" {["prt_1" := "Hi"]} in
  let agent := mkAgent {["ses_1" := session]} ∅ in
  let marked := fst (cancel agent "ses_1" (Threw (UpstreamError "offline"))) in
  let cleared :=
    fst (prompt (fun _ _ => mkResponse None (Some "offline")) (fun _ _ _ => Returned true)
           marked "ses_1" [PromptText "hello"]) in
  sessions marked !! "ses_1" = Some (mkSession true "plan" {["prt_1" := "Hi"]})
  /\ sessions cleared !! "ses_1" = Some (mkSession false "plan" {["prt_1" := "Hi"]}).
Proof.
  intros session agent marked cleared.
  destruct (cancel_marks_and_prompt_clears
              (fun _ _ => mkResponse None (Some "offline")) (fun _ _ _ => Returned true)
              agent session "ses_1" [PromptText "hello"] (Threw (UpstreamError "offline"))
              eq_refl) as (_ & Hmarked & Hcleared & _).
  split; [exact Hmarked | exact Hcleared].
Defined.

(** X12: [prompt] never reports the stop reasons max_tokens and
    max_turn_requests: whatever the session table, the prompt, the slash
    command handler and the upstream runtime do, a stop reason it returns is
    end_turn, cancelled or refusal. *)
Theorem prompt_stop_reason_range :
  forall (session_prompt : string -> list PromptBlock -> UpstreamResponse PromptData)
         (handleCommand : string -> string -> string -> Result bool)
         (agent : Agent) (sessionId : string) (blocks : list PromptBlock)
         (stopReason : StopReason),
    snd (prompt session_prompt handleCommand agent sessionId blocks) = Returned stopReason ->
    stopReason = end_turn \/ stopReason = cancelled \/ stopReason = refusal.
Proof.
  intros session_prompt handleCommand agent sessionId blocks stopReason.
  assert (Hupstream : prompt_upstream session_prompt sessionId blocks = Returned stopReason ->
                      stopReason = end_turn \/ stopReason = cancelled \/ stopReason = refusal).
  { unfold prompt_upstream, stopReason_of.
    destruct (response_error _); [discriminate |].
    destruct (response_data _) as [promptData |]; [| discriminate].
    destruct (msg_error (info promptData)) as [error |].
    - destruct (bool_decide _); intros [= <-]; auto.
    - intros [= <-]; auto. }
  unfold prompt.
  destruct (sessions agent !! sessionId); [| discriminate].
  destruct (slash_command blocks) as [[command args] |]; [| exact Hupstream].
  destruct (handleCommand sessionId command args) as [[|] | e]; cbn [snd].
  - intros [= <-]. auto.
  - exact Hupstream.
  - discriminate.
Qed.

Lemma prompt_stop_reason_range_witness :
  let refused :=
    mkPromptData
      (mkAssistantMessage "ses_1" (Some (mkMessageError "ProviderAuthError" None "{}"))) in
  let agent := mkAgent {["ses_1" := mkSession false "default" ∅]} ∅ in
  snd (prompt (fun _ _ => mkResponse (Some refused) None) (fun _ _ _ => Returned true)
         agent "ses_1" [PromptText "hello"])
  = Returned refusal
  /\ (refusal = end_turn \/ refusal = cancelled \/ refusal = refusal).
Proof.
  intros refused agent. split; [reflexivity |].
  apply (prompt_stop_reason_range
           (fun _ _ => mkResponse (Some refused) None) (fun _ _ _ => Returned true)
           agent "ses_1" [PromptText "hello"] refusal).
  reflexivity.
Defined.

(** X13: when the prompt is sent upstream, an error of the upstream call is
    thrown as it is, even if the call also carries data, and a call that
    carries neither error nor data throws "Unexpected empty response from
    Opencode prompt."; in both cases the cancelled flag has been cleared. *)
Theorem prompt_upstream_failures :
  forall (session_prompt : string -> list PromptBlock -> UpstreamResponse PromptData)
         (handleCommand : string -> string -> string -> Result bool)
         (agent : Agent) (session : Session) (sessionId : string)
         (blocks : list PromptBlock),
    sessions agent !! sessionId = Some session ->
    slash_command blocks = None ->
    response_error (session_prompt sessionId blocks) <> None
    \/ response_data (session_prompt sessionId blocks) = None ->
    prompt session_prompt handleCommand agent sessionId blocks
    = (setSession agent sessionId (setCancelled session false),
       match response_error (session_prompt sessionId blocks) with
       | Some promptError => Threw (UpstreamError promptError)
       | None => Threw (Error "Unexpected empty response from Opencode prompt.")
       end).
Proof.
  intros session_prompt handleCommand agent session sessionId blocks
    Hsession Hslash Hfails.
  unfold prompt. rewrite Hsession, Hslash. unfold prompt_upstream.
  destruct (response_error (session_prompt sessionId blocks)) as [e |]; [reflexivity |].
  destruct Hfails as [Herror | Hdata]; [contradiction |].
  rewrite Hdata. reflexivity.
Qed.

Lemma prompt_upstream_failures_witness :
  let agent := mkAgent {["ses_1" := mkSession true "default" ∅]} ∅ in
  let data := mkPromptData (mkAssistantMessage "ses_1" None) in
  prompt (fun _ _ => mkResponse (Some data) (Some "rate limited"))
    (fun _ _ _ => Returned true) agent "ses_1" [PromptText "hello"]
  = (mkAgent {["ses_1" := mkSession false "default" ∅]} ∅,
     Threw (UpstreamError "rate limited")).
Proof.
  intros agent data.
  rewrite (prompt_upstream_failures
             (fun _ _ => mkResponse (Some data) (Some "rate limited"))
             (fun _ _ _ => Returned true) agent (mkSession true "default" ∅)
             "ses_1" [PromptText "hello"] eq_refl eq_refl);
    [reflexivity | left; discriminate].
Defined.

(** X14: a prompt whose first block is a text that starts with a slash is run
    as a command, and when the command is handled or throws the prompt is not
    sent upstream: the result is end_turn, or the error of the command,
    whatever the upstream runtime would have answered.  The command is the
    text between the slash and the first space, the arguments the text after
    that space. *)
Theorem handled_slash_command_skips_upstream :
  forall (session_prompt : string -> list PromptBlock -> UpstreamResponse PromptData)
         (handleCommand : string -> string -> string -> Result bool)
         (agent : Agent) (session : Session) (sessionId command args : string)
         (more : list PromptBlock),
    sessions agent !! sessionId = Some session ->
    (forall a b, command <> a ++ " " ++ b) ->
    handleCommand sessionId command args <> Returned false ->
    snd (prompt session_prompt handleCommand agent sessionId
           (PromptText ("/" ++ command ++ " " ++ args) :: more))
    = match handleCommand sessionId command args with
      | Threw e => Threw e
      | Returned _ => Returned end_turn
      end.
Proof.
  intros session_prompt handleCommand agent session sessionId command args more
    Hsession Hword Hhandled.
  assert (Hsplit : split_command (command ++ " " ++ args) = (command, args)).
  { clear Hhandled. induction command as [| c command IH]; [reflexivity |].
    change (split_command (String c (command ++ " " ++ args)) = (String c command, args)).
    cbn [split_command].
    destruct (Ascii.eqb c " ") eqn:Hc.
    - apply Ascii.eqb_eq in Hc. subst c. exfalso. exact (Hword "" command eq_refl).
    - rewrite IH; [reflexivity |].
      intros a b Heq. apply (Hword (String c a) b). rewrite Heq. reflexivity. }
  assert (Hslash : slash_command (PromptText ("/" ++ command ++ " " ++ args) :: more)
                   = Some (command, args)).
  { unfold slash_command, startsWith.
    change ("/" ++ command ++ " " ++ args) with (String "/" (command ++ " " ++ args)).
    rewrite (proj2 (prefix_cons_inv_iff "/" "/" "" (command ++ " " ++ args)));
      [| split; [reflexivity | destruct (command ++ " " ++ args); reflexivity]].
    cbn [substring_from]. rewrite Hsplit. reflexivity. }
  unfold prompt. rewrite Hsession, Hslash.
  destruct (handleCommand sessionId command args) as [[|] | e]; try reflexivity.
  contradiction.
Qed.

Lemma handled_slash_command_skips_upstream_witness :
  snd (prompt (fun _ _ => mkResponse None (Some "offline"))
         (fun _ command _ =>
            if String.eqb command "compact" then Returned true else Returned false)
         (mkAgent {["ses_1" := mkSession false "default" ∅]} ∅) "ses_1"
         [PromptText "/compact now please"])
  = Returned end_turn.
Proof.
  apply (handled_slash_command_skips_upstream
           (fun _ _ => mkResponse None (Some "offline"))
           (fun _ command _ =>
              if String.eqb command "compact" then Returned true else Returned false)
           (mkAgent {["ses_1" := mkSession false "default" ∅]} ∅)
           (mkSession false "default" ∅) "ses_1" "compact" "now please" []).
  - reflexivity.
  - apply free_of_separator. reflexivity.
  - discriminate.
Defined.

(** ** Splitting texts *)

Lemma split_on_cons (sep : ascii) (s : string) :
  exists piece pieces, split_on sep s = piece :: pieces.
Proof.
  destruct s as [| c s]; [eexists _, _; reflexivity |].
  cbn [split_on]. destruct (Ascii.eqb c sep); [eexists _, _; reflexivity |].
  destruct (split_on sep s); eexists _, _; reflexivity.
Qed.

Lemma concat_cons_cons (sep piece next : string) (pieces : list string) :
  String.concat sep (piece :: next :: pieces)
  = piece ++ sep ++ String.concat sep (next :: pieces).
Proof. reflexivity. Qed.

(** Joining the pieces of a text with the separator gives the text back. *)
Lemma join_split_on (sep : ascii) (s : string) :
  String.concat (String sep "") (split_on sep s) = s.
Proof.
  induction s as [| c s IH]; [reflexivity |].
  cbn [split_on]. destruct (split_on_cons sep s) as (piece & pieces & Hsplit).
  rewrite Hsplit in IH |- *.
  destruct (Ascii.eqb c sep) eqn:Hc.
  - apply Ascii.eqb_eq in Hc. subst c.
    rewrite concat_cons_cons, IH. reflexivity.
  - destruct pieces as [| next pieces].
    + cbn [String.concat] in IH |- *. rewrite IH. reflexivity.
    + rewrite concat_cons_cons in IH |- *.
      change (String c (piece ++ String sep "" ++ String.concat (String sep "") (next :: pieces))
              = String c s).
      rewrite IH. reflexivity.
Qed.

(** X15: the command and the arguments [prompt] takes from a slash text are
    those of the source's [text.split(' ')]: the command is the first piece,
    the arguments are the remaining pieces joined by single spaces, and
    joining all the pieces gives the text back, so no character of the text
    is lost or added (runs of spaces after the command stay in the
    arguments). *)
Theorem split_command_is_split_and_join :
  forall text : string,
    split_command text
    = (hd "" (split_on " " text), String.concat " " (tl (split_on " " text)))
    /\ String.concat " " (split_on " " text) = text.
Proof.
  intros text. split; [| apply join_split_on].
  induction text as [| c text IH]; [reflexivity |].
  cbn [split_command split_on]. destruct (Ascii.eqb c " ") eqn:Hc.
  - cbn [hd tl]. rewrite join_split_on. reflexivity.
  - rewrite IH. destruct (split_on_cons " " text) as (piece & pieces & Hsplit).
    rewrite Hsplit. reflexivity.
Qed.

(** ** Notification mapper *)

(** X16: the notification mapper gives at most two notifications for a part,
    all of them for the session id it was given; a message-level error adds
    exactly one notification, the last one, which is the error chunk, and a
    part of a message without error gives at most one notification. *)
Theorem toAcpNotifications_shape :
  forall (messageInfo : AssistantMessage) (messagePart : Part) (session : string),
    let sent := toAcpNotifications messageInfo messagePart session in
    (length sent <= 2)%nat
    /\ Forall (fun n => sessionId n = session) sent
    /\ match msg_error messageInfo with
       | Some error =>
           last sent = Some (mkNotification session (error_chunk error))
           /\ length sent
              = S (length (toAcpNotifications placeholder_message messagePart session))
       | None => (length sent <= 1)%nat
       end.
Proof.
  intros messageInfo messagePart session sent. subst sent.
  unfold toAcpNotifications. cbn [msg_error placeholder_message].
  destruct (part_update messagePart) as [update |], (msg_error messageInfo) as [error |];
    cbn; repeat split; repeat constructor.
Qed.

Lemma prefix_first_char (c : ascii) (p s : string) :
  String.prefix (String c p) s = true -> exists s', s = String c s'.
Proof.
  destruct s as [| d s]; [discriminate |].
  intros H. apply prefix_cons_inv in H as [-> _]. eexists. reflexivity.
Qed.

(** A tool is of kind [Edit] exactly when its name starts with one of write,
    edit, apply and insert: no such name starts with read. *)
Lemma mapToolKind_Edit (tool : string) :
  mapToolKind tool = Edit <-> edit_prefix tool = true.
Proof.
  unfold mapToolKind, edit_prefix, startsWith.
  destruct (String.prefix "read" tool) eqn:Hread.
  - apply prefix_first_char in Hread as [s' ->]. cbn. split; discriminate.
  - destruct (String.prefix "write" tool || String.prefix "edit" tool
              || String.prefix "apply" tool || String.prefix "insert" tool) eqn:Hedit.
    + split; reflexivity.
    + split; [| discriminate].
      repeat match goal with
             | |- context [String.prefix ?p tool] => destruct (String.prefix p tool)
             end; cbn; discriminate.
Qed.

(** X17: a completed tool part is shown as a diff exactly when the name of
    the tool starts with write, edit, apply or insert and its output is an
    object with [path] and [newText]; the diff carries the path and the old
    and new text of the output.  Every other completed tool part is shown as
    the JSON text of its output. *)
Theorem completed_tool_is_diff_for_edit_tools :
  forall (partId session callID tool : string) (output : ToolOutput)
         (content : option (list ToolCallContent)) (locations : option (list string)),
    toAcpNotifications placeholder_message
      (mkPart partId session (PartTool callID tool (StateCompleted output) content locations))
      session
    = [mkNotification session
         (tool_call_update callID None Completed
            match output with
            | OutputEdit path oldText newText json =>
                if edit_prefix tool then [Diff path oldText newText]
                else [Content (TextContent json)]
            | OutputJson json => [Content (TextContent json)]
            end None)].
Proof.
  intros partId session callID tool output content locations.
  unfold toAcpNotifications, part_update. cbn [part_body msg_error placeholder_message].
  destruct output as [path oldText newText json | json]; [| reflexivity].
  destruct (decide (mapToolKind tool = Edit)) as [Hedit | Hother].
  - apply mapToolKind_Edit in Hedit. rewrite Hedit. reflexivity.
  - destruct (edit_prefix tool) eqn:Hprefix; [| reflexivity].
    exfalso. apply Hother, mapToolKind_Edit, Hprefix.
Qed.

(** X18: the kinds Delete and Move are never inferred from a tool name; a
    tool is of kind Read exactly when its name starts with read, and of kind
    Edit exactly when it starts with write, edit, apply or insert. *)
Theorem mapToolKind_range :
  forall tool : string,
    mapToolKind tool <> Delete
    /\ mapToolKind tool <> Move
    /\ (mapToolKind tool = Read <-> startsWith tool "read" = true)
    /\ (mapToolKind tool = Edit
        <-> startsWith tool "write" || startsWith tool "edit"
            || startsWith tool "apply" || startsWith tool "insert" = true).
Proof.
  intros tool. split; [| split; [| split; [| apply mapToolKind_Edit]]];
    unfold mapToolKind;
    repeat match goal with
           | |- context [if ?b then _ else _] => destruct b eqn:?
           end; try discriminate; try (split; congruence).
Qed.

(** ** newSession and loadSession *)

Lemma newSession_returned (agent agent' : Agent) (create : UpstreamResponse string)
    (id : string) (modes : SessionModeState) :
  newSession agent create = (agent', Returned (id, modes)) ->
  agent' = setSession agent id initial_session /\ modes = session_modes.
Proof.
  unfold newSession.
  destruct (response_error create), (response_data create); intros [= <- <- <-].
  split; reflexivity.
Qed.

(** X19: the modes [newSession] advertises are the modes [setSessionMode]
    accepts: for the session just created, a mode id is among the ids of the
    available modes returned exactly when [setSessionMode] returns for it,
    and the current mode returned is the permission mode stored for the
    session. *)
Theorem advertised_modes_are_the_accepted_modes :
  forall (agent agent' : Agent) (create : UpstreamResponse string)
         (id : string) (modes : SessionModeState) (modeId : string),
    newSession agent create = (agent', Returned (id, modes)) ->
    (In modeId (map mode_id (availableModes modes))
     <-> snd (setSessionMode agent' id modeId) = Returned tt)
    /\ exists session,
         sessions agent' !! id = Some session
         /\ permissionMode session = currentModeId modes.
Proof.
  intros agent agent' create id modes modeId Hnew.
  apply newSession_returned in Hnew as [-> ->].
  assert (Hlookup : sessions (setSession agent id initial_session) !! id
                    = Some initial_session) by apply lookup_insert_eq.
  split; [| exists initial_session; split; [exact Hlookup | reflexivity]].
  unfold setSessionMode. rewrite Hlookup.
  destruct (is_mode modeId) eqn:Hmode; cbn [snd].
  - split; [reflexivity |]. intros _. apply is_mode_spec in Hmode.
    cbn. destruct Hmode as [-> | [-> | [-> | ->]]]; auto.
  - split; [| discriminate]. intros Hin. exfalso.
    assert (Hyes : is_mode modeId = true).
    { apply is_mode_spec. cbn in Hin. destruct Hin as [<- | [<- | [<- | [<- | []]]]]; auto. }
    congruence.
Qed.

Lemma advertised_modes_are_the_accepted_modes_witness :
  let fresh := setSession (mkAgent ∅ ∅) "ses_1" initial_session in
  (In "acceptEdits" (map mode_id (availableModes session_modes))
   <-> snd (setSessionMode fresh "ses_1" "acceptEdits") = Returned tt)
  /\ exists session,
       sessions fresh !! "ses_1" = Some session
       /\ permissionMode session = currentModeId session_modes.
Proof.
  intros fresh.
  apply (advertised_modes_are_the_accepted_modes (mkAgent ∅ ∅) fresh
           (mkResponse (Some "ses_1") None) "ses_1" session_modes "acceptEdits").
  reflexivity.
Defined.

Lemma loadSession_verified (agent : Agent) (sessionId : string)
    (verify : UpstreamResponse unit) (history : UpstreamResponse (list StoredMessage)) :
  response_error verify = None ->
  response_data verify <> None ->
  fst (fst (loadSession agent sessionId verify history))
  = setSession agent sessionId initial_session.
Proof.
  intros Herror Hdata. unfold loadSession. rewrite Herror.
  destruct (response_data verify); [| contradiction].
  destruct (response_error history), (response_data history); reflexivity.
Qed.

(** X20: [loadSession] registers the session before it fetches the history.
    When the session cannot be verified it throws and the agent is as it
    was; when the session is verified but the history cannot be fetched it
    throws as well and has sent nothing, yet the session is registered anew:
    not cancelled, in default mode, with no stored text, whatever the agent
    held for that id before. *)
Theorem loadSession_registers_before_history :
  forall (agent : Agent) (sessionId : string)
         (verify : UpstreamResponse unit) (history : UpstreamResponse (list StoredMessage)),
    (response_error verify <> None \/ response_data verify = None ->
     exists message,
       loadSession agent sessionId verify history = (agent, [], Threw (Error message)))
    /\ (response_error verify = None -> response_data verify <> None ->
        response_error history <> None \/ response_data history = None ->
        exists message agent',
          loadSession agent sessionId verify history = (agent', [], Threw (Error message))
          /\ sessions agent' !! sessionId = Some (mkSession false "default" ∅)).
Proof.
  intros agent sessionId verify history. unfold loadSession. split.
  - intros Hfails.
    destruct (response_error verify) as [e |], (response_data verify) as [[] |];
      try (eexists; reflexivity).
    destruct Hfails as [H | H]; [contradiction | discriminate].
  - intros Herror Hdata Hfails. rewrite Herror.
    destruct (response_data verify) as [[] |]; [| contradiction].
    destruct (response_error history) as [e |], (response_data history) as [messages |];
      try (eexists _, _; split; [reflexivity | apply lookup_insert_eq]).
    destruct Hfails as [H | H]; [contradiction | discriminate].
Qed.

Lemma loadSession_registers_before_history_witness :
  let agent := mkAgent {["ses_1" := mkSession true "plan" {["prt_1" := "Hello"]}]} ∅ in
  exists message agent',
    loadSession agent "ses_1" (mkResponse (Some tt) None) (mkResponse None (Some "timeout"))
    = (agent', [], Threw (Error message))
    /\ sessions agent' !! "ses_1" = Some (mkSession false "default" ∅).
Proof.
  intros agent.
  apply (proj2 (loadSession_registers_before_history agent "ses_1"
                  (mkResponse (Some tt) None) (mkResponse None (Some "timeout")))).
  - reflexivity.
  - discriminate.
  - left. discriminate.
Defined.

Lemma chunks_with_text_app (text : string) (xs ys : list ReplayNotification) :
  chunks_with_text text (xs ++ ys)%list
  = (chunks_with_text text xs ++ chunks_with_text text ys)%list.
Proof. unfold chunks_with_text. apply List.filter_app. Qed.

(** X21: in the replay of an assistant message that carries a message-level
    error, the error chunk is sent once after every part of the message: it
    occurs at least as many times as the message has parts, and a message
    without parts is replayed as nothing at all, so its error is not
    reported. *)
Theorem replay_repeats_message_error_per_part :
  forall (session : string) (info : AssistantMessage) (providerID modelID : string)
         (parts : list Part) (error : MessageError),
    msg_error info = Some error ->
    let sent := replayMessage session (StoredAssistantMessage info providerID modelID parts) in
    let text :=
      "Error from OpenCode: " ++ error_name error ++ " - "
        ++ opt_str_or (error_message error) (error_data_json error) in
    (length parts <= length (chunks_with_text text sent))%nat
    /\ (parts = [] -> sent = []).
Proof.
  intros session info providerID modelID parts error Herror sent text.
  subst sent. split; [| intros ->; reflexivity].
  cbn [replayMessage]. induction parts as [| part parts IH]; [cbn; lia |].
  cbn [flat_map]. rewrite chunks_with_text_app, length_app. cbn [length].
  enough (1 <= length (chunks_with_text text
                         (map replayed (toAcpNotifications info part session))))%nat by lia.
  unfold toAcpNotifications. rewrite Herror.
  rewrite map_app, chunks_with_text_app, length_app.
  cbn [map chunks_with_text List.filter error_chunk]. fold text.
  rewrite bool_decide_eq_true_2 by reflexivity. cbn [length]. lia.
Qed.

Lemma replay_repeats_message_error_per_part_witness :
  let info :=
    mkAssistantMessage "ses_1" (Some (mkMessageError "APIError" (Some "overloaded") "{}")) in
  let parts := [mkPart "prt_1" "ses_1" PartStepStart; mkPart "prt_2" "ses_1" PartStepFinish] in
  (2 <= length (chunks_with_text "Error from OpenCode: APIError - overloaded"
                  (replayMessage "ses_1" (StoredAssistantMessage info "p" "m" parts))))%nat.
Proof.
  intros info parts.
  exact (proj1 (replay_repeats_message_error_per_part "ses_1" info "p" "m" parts
                  (mkMessageError "APIError" (Some "overloaded") "{}") eq_refl)).
Defined.

(** X22: loading a session forgets what was sent for it: once [loadSession]
    has verified the session, whether or not the history could be fetched,
    the next text update of any part of that session is sent whole, and the
    next pending tool part asks the client, whatever texts and mode the agent
    held for the session before. *)
Theorem loadSession_resets_streaming_state :
  forall (agent : Agent) (sessionId : string)
         (verify : UpstreamResponse unit) (history : UpstreamResponse (list StoredMessage))
         (partId text callID tool : string) (time : PartTime)
         (answer : RequestPermissionRequest -> RequestPermissionOutcome),
    response_error verify = None ->
    response_data verify <> None ->
    sessionId <> "" ->
    text <> "" ->
    let loaded := fst (fst (loadSession agent sessionId verify history)) in
    calls_of answer (handleEvent loaded (text_event sessionId partId (text, time)))
    = [message_chunk sessionId text]
    /\ List.filter is_asked
         (calls_of answer
            (handleEvent loaded (pending_tool_event partId sessionId callID tool None None)))
       = [Asked (permission_request sessionId callID tool)
            (answer (permission_request sessionId callID tool))].
Proof.
  intros agent sessionId verify history partId text callID tool time answer
    Herror Hdata Hid Htext loaded.
  assert (Hloaded : sessions loaded !! sessionId = Some initial_session).
  { subst loaded. rewrite loadSession_verified by assumption. apply lookup_insert_eq. }
  unfold calls_of. split.
  - rewrite (run_text_event_delta answer sessionId partId Hid loaded initial_session
               (text, time) Hloaded).
    cbn [fst]. destruct text as [| c text]; [contradiction | reflexivity].
  - rewrite (run_pending_tool answer loaded initial_session partId sessionId callID tool
               None None Hloaded Hid).
    cbv zeta. cbn [permissionMode initial_session]. decide_modes. cbn [orb fst].
    destruct (not_allowed_once _); reflexivity.
Qed.

Lemma loadSession_resets_streaming_state_witness :
  let agent := mkAgent {["ses_1" := mkSession false "plan" {["prt_1" := "Hello"]}]} ∅ in
  let loaded :=
    fst (fst (loadSession agent "ses_1" (mkResponse (Some tt) None)
                (mkResponse (Some []) None))) in
  calls_of (fun _ => outcome_cancelled)
    (handleEvent loaded (text_event "ses_1" "prt_1" ("Hello", mkTime 1 None)))
  = [message_chunk "ses_1" "Hello"].
Proof.
  intros agent loaded.
  exact (proj1 (loadSession_resets_streaming_state agent "ses_1"
                  (mkResponse (Some tt) None) (mkResponse (Some []) None)
                  "prt_1" "Hello" "call_1" "read_file" (mkTime 1 None)
                  (fun _ => outcome_cancelled)
                  eq_refl ltac:(discriminate) ltac:(discriminate) ltac:(discriminate))).
Defined.

(** ** getModelInfo *)

Lemma truthy_true (s : string) : truthy s = true <-> s <> "".
Proof.
  unfold truthy. rewrite negb_true_iff, bool_decide_eq_false. reflexivity.
Qed.

Lemma model_of_messages_Some (messages : UpstreamResponse (list StoredMessage))
    (providerID modelID : string) :
  model_of_messages messages = Some (providerID, modelID) ->
  providerID <> "" /\ modelID <> "".
Proof.
  unfold model_of_messages.
  destruct (response_error messages); [discriminate |].
  destruct (response_data messages) as [[| m data] |]; try discriminate.
  destruct (lastAssistantMessage (m :: data)) as [[p q] |]; [| discriminate].
  destruct (truthy p && truthy q) eqn:Htruthy; [| discriminate].
  intros [= <- <-]. apply andb_true_iff in Htruthy as [Hp Hq].
  split; apply truthy_true; assumption.
Qed.

Lemma model_of_config_Some (config : UpstreamResponse Config) (providerID modelID : string) :
  model_of_config config = Some (providerID, modelID) ->
  providerID <> "" /\ modelID <> "".
Proof.
  unfold model_of_config.
  destruct (response_error config); [discriminate |].
  destruct (response_data config) as [data |]; [| discriminate].
  destruct (config_model data) as [model |]; [| discriminate].
  destruct (truthy model); [| discriminate].
  destruct (split_on "/" model) as [| p [| q rest]]; try discriminate.
  destruct (truthy p && truthy q) eqn:Htruthy; [| discriminate].
  intros [= <- <-]. apply andb_true_iff in Htruthy as [Hp Hq].
  split; apply truthy_true; assumption.
Qed.

Lemma model_of_providers_Some (providers : UpstreamResponse (list Provider))
    (providerID modelID : string) :
  model_of_providers providers = Some (providerID, modelID) -> modelID <> "".
Proof.
  unfold model_of_providers.
  destruct (response_error providers); [discriminate |].
  destruct (response_data providers) as [[| first others] |]; try discriminate.
  destruct (provider_models first) as [| model models]; [discriminate |].
  destruct (truthy model) eqn:Htruthy; [| discriminate].
  intros [= <- <-]. apply truthy_true. exact Htruthy.
Qed.

(** X23: [getModelInfo] throws "Could not determine a model to use." exactly
    when none of its three sources gives a model, as when all three upstream
    calls fail, and it throws nothing else; a model id it returns is never
    empty, and a provider id it returns is empty only when the result comes
    from its last source, the provider list, whose provider id it does not
    test. *)
Theorem getModelInfo_result :
  forall (messages : UpstreamResponse (list StoredMessage))
         (config : UpstreamResponse Config) (providers : UpstreamResponse (list Provider)),
    (getModelInfo messages config providers
     = Threw (Error "Could not determine a model to use.")
     <-> model_of_messages messages = None
         /\ model_of_config config = None
         /\ model_of_providers providers = None)
    /\ (forall e, getModelInfo messages config providers = Threw e ->
                  e = Error "Could not determine a model to use.")
    /\ (response_error messages <> None ->
        response_error config <> None ->
        response_error providers <> None ->
        getModelInfo messages config providers
        = Threw (Error "Could not determine a model to use."))
    /\ (forall providerID modelID,
           getModelInfo messages config providers = Returned (providerID, modelID) ->
           modelID <> ""
           /\ (providerID = "" ->
               model_of_messages messages = None /\ model_of_config config = None)).
Proof.
  intros messages config providers.
  assert (Hthrows : model_of_messages messages = None ->
                    model_of_config config = None ->
                    model_of_providers providers = None ->
                    getModelInfo messages config providers
                    = Threw (Error "Could not determine a model to use.")).
  { intros Hm Hc Hp. unfold getModelInfo. rewrite Hm, Hc, Hp. reflexivity. }
  split; [| split; [| split]].
  - split; [| intros (Hm & Hc & Hp); auto].
    unfold getModelInfo.
    destruct (model_of_messages messages); [discriminate |].
    destruct (model_of_config config); [discriminate |].
    destruct (model_of_providers providers); [discriminate |].
    auto.
  - intros e. unfold getModelInfo.
    destruct (model_of_messages messages); [discriminate |].
    destruct (model_of_config config); [discriminate |].
    destruct (model_of_providers providers); [discriminate |].
    intros [= <-]. reflexivity.
  - intros Hm Hc Hp. apply Hthrows.
    + unfold model_of_messages. destruct (response_error messages); [reflexivity | contradiction].
    + unfold model_of_config. destruct (response_error config); [reflexivity | contradiction].
    + unfold model_of_providers.
      destruct (response_error providers); [reflexivity | contradiction].
  - intros providerID modelID. unfold getModelInfo.
    destruct (model_of_messages messages) as [[p m] |] eqn:Hmessages.
    { intros [= -> ->]. apply model_of_messages_Some in Hmessages as [Hp Hm].
      split; [exact Hm | intros ->; contradiction]. }
    destruct (model_of_config config) as [[p m] |] eqn:Hconfig.
    { intros [= -> ->]. apply model_of_config_Some in Hconfig as [Hp Hm].
      split; [exact Hm | intros ->; contradiction]. }
    destruct (model_of_providers providers) as [[p m] |] eqn:Hproviders; [| discriminate].
    intros [= -> ->]. apply model_of_providers_Some in Hproviders.
    split; [exact Hproviders | auto].
Qed.

Lemma split_on_piece (sep : ascii) (piece rest : string) :
  (forall a b, piece <> a ++ String sep b) ->
  split_on sep (piece ++ String sep rest) = piece :: split_on sep rest.
Proof.
  induction piece as [| c piece IH]; intros Hfree.
  - change (split_on sep (String sep rest) = "" :: split_on sep rest).
    cbn [split_on]. rewrite Ascii.eqb_refl. reflexivity.
  - change (split_on sep (String c (piece ++ String sep rest))
            = String c piece :: split_on sep rest).
    cbn [split_on]. destruct (Ascii.eqb c sep) eqn:Hc.
    + apply Ascii.eqb_eq in Hc. subst c. exfalso. exact (Hfree "" piece eq_refl).
    + rewrite IH; [reflexivity |].
      intros a b Heq. apply (Hfree (String c a) b). rewrite Heq. reflexivity.
Qed.

Lemma split_on_free (sep : ascii) (piece : string) :
  (forall a b, piece <> a ++ String sep b) -> split_on sep piece = [piece].
Proof.
  induction piece as [| c piece IH]; intros Hfree; [reflexivity |].
  cbn [split_on]. destruct (Ascii.eqb c sep) eqn:Hc.
  - apply Ascii.eqb_eq in Hc. subst c. exfalso. exact (Hfree "" piece eq_refl).
  - rewrite IH; [reflexivity |].
    intros a b Heq. apply (Hfree (String c a) b). rewrite Heq. reflexivity.
Qed.

(** X24: when the history gives no model, a configured model "p/m" is used
    as provider p and model m, and of a configured model with more than two
    segments, "p/m/...", only the first two are used; p and m stand for
    non-empty texts without a slash. *)
Theorem getModelInfo_uses_two_config_segments :
  forall (messages : UpstreamResponse (list StoredMessage))
         (providers : UpstreamResponse (list Provider))
         (providerID modelID : string) (more : option string),
    model_of_messages messages = None ->
    providerID <> "" ->
    modelID <> "" ->
    (forall a b, providerID <> a ++ "/" ++ b) ->
    (forall a b, modelID <> a ++ "/" ++ b) ->
    getModelInfo messages
      (mkResponse
         (Some (mkConfig
                  (Some (providerID ++ "/"
                           ++ match more with
                              | Some rest => modelID ++ "/" ++ rest
                              | None => modelID
                              end)))) None)
      providers
    = Returned (providerID, modelID).
Proof.
  intros messages providers providerID modelID more Hmessages Hp Hm Hpfree Hmfree.
  unfold getModelInfo. rewrite Hmessages. unfold model_of_config.
  cbn [response_error response_data config_model].
  set (tail := match more with
               | Some rest => modelID ++ "/" ++ rest
               | None => modelID
               end).
  assert (Hmodel : truthy (providerID ++ "/" ++ tail) = true).
  { apply truthy_true. destruct providerID; [contradiction | discriminate]. }
  rewrite Hmodel.
  change (providerID ++ "/" ++ tail) with (providerID ++ String "/" tail).
  rewrite (split_on_piece "/" providerID) by exact Hpfree.
  assert (Htail : exists pieces, split_on "/" tail = modelID :: pieces).
  { subst tail. destruct more as [rest |].
    - change (modelID ++ "/" ++ rest) with (modelID ++ String "/" rest).
      rewrite (split_on_piece "/" modelID) by exact Hmfree. eexists. reflexivity.
    - rewrite (split_on_free "/" modelID) by exact Hmfree. eexists. reflexivity. }
  destruct Htail as [pieces ->].
  rewrite (proj2 (truthy_true providerID) Hp), (proj2 (truthy_true modelID) Hm).
  reflexivity.
Qed.

Lemma getModelInfo_uses_two_config_segments_witness :
  getModelInfo (mkResponse (Some []) None)
    (mkResponse (Some (mkConfig (Some "openrouter/anthropic/claude"))) None)
    (mkResponse None (Some "offline"))
  = Returned ("openrouter", "anthropic").
Proof.
  apply (getModelInfo_uses_two_config_segments (mkResponse (Some []) None)
           (mkResponse None (Some "offline")) "openrouter" "anthropic" (Some "claude")).
  - reflexivity.
  - discriminate.
  - discriminate.
  - apply free_of_separator. reflexivity.
  - apply free_of_separator. reflexivity.
Defined.

Lemma omap_user_messages (f : StoredMessage -> option (string * string))
    (partss : list (list Part)) :
  (forall parts, f (UserMessage parts) = None) ->
  omap f (map UserMessage partss) = [].
Proof.
  intros Huser. induction partss as [| parts partss IH]; [reflexivity |].
  cbn [map omap list_omap]. rewrite Huser. exact IH.
Qed.

(** X25: of the history only the last assistant message counts for the
    model: if its provider id and model id are both non-empty they are the
    result, and if one of them is empty the history gives no model, even
    when an earlier assistant message names one; user messages after it do
    not matter. *)
Theorem only_last_assistant_message_names_the_model :
  forall (earlier : list StoredMessage) (info : AssistantMessage)
         (providerID modelID : string) (parts : list Part) (later : list (list Part)),
    model_of_messages
      (mkResponse
         (Some (earlier ++ StoredAssistantMessage info providerID modelID parts
                  :: map UserMessage later)%list) None)
    = if truthy providerID && truthy modelID then Some (providerID, modelID) else None.
Proof.
  intros earlier info providerID modelID parts later.
  unfold model_of_messages. cbn [response_error response_data].
  assert (Hlast : lastAssistantMessage
                    (earlier ++ StoredAssistantMessage info providerID modelID parts
                       :: map UserMessage later)%list
                  = Some (providerID, modelID)).
  { unfold lastAssistantMessage. rewrite omap_app. cbn [omap list_omap].
    rewrite omap_user_messages by reflexivity. apply last_snoc. }
  destruct earlier as [| first earlier]; cbn [app] in *; rewrite Hlast; reflexivity.
Qed.

(** ** Background process tracker *)

(** The tracker writes no output and no exit status. *)
Lemma reachable_records (agent : Agent) :
  reachable agent ->
  forall (terminalId : string) (terminal : BackgroundTerminal),
    backgroundTerminals agent !! terminalId = Some terminal ->
    output terminal = "" /\ exitStatus terminal = None.
Proof.
  induction 1 as [table | agent r Hreach IH Hfresh]; intros terminalId terminal Hlookup.
  - cbn in Hlookup. rewrite lookup_empty in Hlookup. discriminate.
  - destruct r as [tid shell | tid | tid | tid | tid]; cbn [serve] in Hlookup.
    + unfold createTerminal in Hlookup.
      destruct (response_error shell), (response_data shell) as [id |];
        cbn [fst] in Hlookup; eauto.
      destruct (bool_decide (id = "")); cbn [fst setTerminals backgroundTerminals] in Hlookup;
        eauto.
      apply lookup_insert_Some in Hlookup as [[_ <-] | [_ Hlookup]]; eauto.
    + unfold terminalOutput in Hlookup.
      destruct (backgroundTerminals agent !! tid); cbn [fst] in Hlookup; eauto.
    + unfold waitForTerminalExit in Hlookup.
      destruct (backgroundTerminals agent !! tid); cbn [fst] in Hlookup; eauto.
    + unfold terminal_kill in Hlookup.
      destruct (backgroundTerminals agent !! tid) as [t |] eqn:Htid;
        cbn [fst setTerminals backgroundTerminals] in Hlookup; eauto.
      apply lookup_insert_Some in Hlookup as [[_ <-] | [_ Hlookup]]; eauto.
      exact (IH tid t Htid).
    + unfold releaseTerminal in Hlookup.
      destruct (backgroundTerminals agent !! tid) as [t |];
        cbn [fst setTerminals backgroundTerminals] in Hlookup; eauto.
      apply lookup_delete_Some in Hlookup as [_ Hlookup]. eauto.
Qed.

(** X26: the tracker never records output or an exit status.  For every
    terminal of an agent reached through its operations, [terminalOutput]
    reports the empty output, not truncated, with no exit status;
    [waitForTerminalExit] keeps polling while the terminal is started, which
    it is until it is killed, and once it is killed reports exit code null
    and signal null. *)
Theorem tracker_reports_no_output_and_no_exit_status :
  forall (agent : Agent) (terminalId : string) (terminal : BackgroundTerminal),
    reachable agent ->
    backgroundTerminals agent !! terminalId = Some terminal ->
    terminalOutput agent terminalId = (agent, Returned (mkOutputResponse "" false None))
    /\ ((status terminal = started
         /\ waitForTerminalExit agent terminalId = (agent, Returned None))
        \/ (status terminal = killed
            /\ waitForTerminalExit agent terminalId
               = (agent, Returned (Some (mkExitStatus None None))))).
Proof.
  intros agent terminalId terminal Hreach Hlookup.
  destruct (reachable_records agent Hreach terminalId terminal Hlookup) as [Houtput Hexit].
  unfold terminalOutput, waitForTerminalExit, waitForTerminalExit_poll, exit_response.
  rewrite Hlookup, Houtput, Hexit. split; [reflexivity |].
  destruct (reachable_statuses agent Hreach terminalId terminal Hlookup) as [Hs | Hs];
    rewrite Hs; [left | right]; split; reflexivity.
Qed.

Lemma tracker_reports_no_output_and_no_exit_status_witness :
  let created :=
    serve (mkAgent ∅ ∅) (CreateTerminal "term_1" (mkResponse (Some "shell_1") None)) in
  let agent := serve created (KillTerminal "term_1") in
  terminalOutput agent "term_1" = (agent, Returned (mkOutputResponse "" false None))
  /\ waitForTerminalExit agent "term_1" = (agent, Returned (Some (mkExitStatus None None))).
Proof.
  intros created agent.
  destruct (tracker_reports_no_output_and_no_exit_status agent "term_1"
              (mkTerminal "shell_1" "" None killed)) as [Houtput [[Hs _] | [_ Hwait]]].
  - apply reachable_serve; [| exact I].
    apply reachable_serve; [apply reachable_init | reflexivity].
  - reflexivity.
  - discriminate Hs.
  - split; [exact Houtput | exact Hwait].
Defined.



(** X28: the life of a terminal.  [createTerminal] registers a terminal only
    when the shell call carries a non-empty shell id and no error, and
    otherwise throws and changes nothing.  A terminal just created has empty
    output and makes [waitForTerminalExit] poll; after ["terminal/kill"] the
    wait returns at its first test, with exit code null and signal null. *)
Theorem terminal_life_cycle :
  forall (agent : Agent) (terminalId : string) (shell : UpstreamResponse string),
    let created := fst (createTerminal agent terminalId shell) in
    let killed_ := fst (terminal_kill created terminalId) in
    match response_error shell, response_data shell with
    | None, Some shellData =>
        if bool_decide (shellData = "")
        then created = agent /\ exists e, snd (createTerminal agent terminalId shell) = Threw e
        else snd (createTerminal agent terminalId shell) = Returned terminalId
             /\ backgroundTerminals created !! terminalId
                = Some (mkTerminal shellData "" None started)
             /\ snd (terminalOutput created terminalId)
                = Returned (mkOutputResponse "" false None)
             /\ snd (waitForTerminalExit created terminalId) = Returned None
             /\ snd (terminal_kill created terminalId) = Returned tt
             /\ snd (waitForTerminalExit killed_ terminalId)
                = Returned (Some (mkExitStatus None None))
    | _, _ =>
        created = agent /\ exists e, snd (createTerminal agent terminalId shell) = Threw e
    end.
Proof.
  intros agent terminalId shell created killed_. subst killed_ created.
  unfold createTerminal.
  destruct (response_error shell) as [e |], (response_data shell) as [shellData |];
    try (split; [reflexivity | eexists; reflexivity]).
  destruct (bool_decide (shellData = "")); [split; [reflexivity | eexists; reflexivity] |].
  cbn [fst snd].
  assert (Hcreated : backgroundTerminals
                       (setTerminals agent
                          (<[terminalId := mkTerminal shellData "" None started]>
                             (backgroundTerminals agent))) !! terminalId
                     = Some (mkTerminal shellData "" None started))
    by apply lookup_insert_eq.
  unfold terminalOutput, waitForTerminalExit, terminal_kill.
  rewrite Hcreated. cbn [fst snd setTerminals backgroundTerminals].
  rewrite lookup_insert_eq.
  repeat split; try reflexivity; exact Hcreated.
Qed.
